(** * Meu Jovinho game API: player progress, leaderboard and statistics

    A shallow embedding of [backend/server.py].  The FastAPI handlers are
    stateless; all state lives in one MongoDB collection, [game_data].
    The collection is modelled as the list of its documents in natural
    order, and every handler as a function from the collection (and, where
    the handler calls [datetime.now()], the current instant) to its JSON
    response and the collection it leaves behind.

    Modelling decisions, all visible in the definitions below:
    - Python [int] is [Z].  The store keeps integers in at most 8 bytes:
      [update_one] raises [OverflowError] when the document to write holds
      an integer outside the signed 64-bit range, the [except] arm of the
      handler answers with status 500, and nothing is written.
    - A document carries exactly the keys of the pydantic model [GameData]:
      both writers ([save_game_data], [record_game_session]) [$set] all of
      them, so the defaults of [doc.get(key, default)] are never taken and
      a read of a stored key is a record projection.  The store-generated
      [_id] is left out.
    - A [datetime] is a number of microseconds since the epoch; the store
      keeps it to the millisecond.  [None] is [None].
    - Apart from the [OverflowError] of [update_one] the pymongo calls do
      not raise: failures of the connection have no counterpart, and a
      [limit] outside the signed 64-bit range, which the driver cannot
      encode either, is not told apart from the other limits.
    - [$sum] is the exact sum of the integers; the store's change to a
      floating-point total when the sum leaves the signed 64-bit range has
      no counterpart.
    - [int / int] is Python's true division; its value is given as the exact
      rational quotient, of which the float is the rounding. *)

From Stdlib Require Import ZArith QArith List Bool.
From stdpp Require Import base decidable option list strings sorting gmap.

Local Open Scope Z_scope.

(** ** Pydantic models *)

Definition datetime := Z.

Module GameData.
Record t := mk {
  player_id : string;
  current_level : Z;
  max_level : Z;
  total_score : Z;
  items_collected : Z;
  games_played : Z;
  last_played : option datetime
}.

#[global] Instance eq_dec : EqDecision t.
Proof. solve_decision. Defined.
End GameData.

Module GameSession.
Record t := mk {
  player_id : string;
  level : Z;
  score : Z;
  items_collected : Z;
  completed : bool;
  time_played : option Z
}.
End GameSession.

(** A stored document has the shape of [GameData.dict()]. *)
Abbreviation Document := GameData.t.

(** ** The collection: the part of pymongo the handlers use *)

Module Collection.

Abbreviation t := (list Document).

(** The integer-valued keys of a document. *)
Inductive Field :=
  | current_level | max_level | total_score | items_collected | games_played.

Definition get (f : Field) (d : Document) : Z :=
  match f with
  | current_level => GameData.current_level d
  | max_level => GameData.max_level d
  | total_score => GameData.total_score d
  | items_collected => GameData.items_collected d
  | games_played => GameData.games_played d
  end.

(** Query documents.  [Equals v] is ["key": v], [GreaterThan v] is
    ["key": {"$gt": v}]; the entries of one dict are a conjunction. *)
Inductive Cond := Equals (v : Z) | GreaterThan (v : Z).

#[warnings="-register-all"]
Inductive Filter :=
  | Everything                          (* {} *)
  | PlayerId (pid : string)             (* {"player_id": pid} *)
  | Where (cs : list (Field * Cond))    (* {"k1": c1, "k2": c2} *)
  | AnyOf (qs : list Filter).           (* {"$or": [q1, q2]} *)

Definition holds (c : Cond) (x : Z) : bool :=
  match c with
  | Equals v => x =? v
  | GreaterThan v => v <? x
  end.

Fixpoint matches (q : Filter) (d : Document) : bool :=
  match q with
  | Everything => true
  | PlayerId pid => bool_decide (GameData.player_id d = pid)
  | Where cs => forallb (fun fc => holds (snd fc) (get (fst fc) d)) cs
  | AnyOf qs => existsb (fun q' => matches q' d) qs
  end.

Definition find_one (q : Filter) (c : t) : option Document :=
  List.find (matches q) c.

Definition count_documents (q : Filter) (c : t) : Z :=
  Z.of_nat (length (filter (fun d => matches q d) c)).

(** What an update with [upsert=True] does to the list when [doc] has every
    key: the first matching document takes the values of [doc]; when none
    matches, [doc] is inserted. *)
Record UpdateResult := {
  matched_count : Z;
  modified_count : Z;
  upserted : bool
}.

Fixpoint set_first (q : Filter) (doc : Document) (c : t) : option (Document * t) :=
  match c with
  | [] => None
  | d :: c' =>
      if matches q d then Some (d, doc :: c')
      else match set_first q doc c' with
           | Some (old, c'') => Some (old, d :: c'')
           | None => None
           end
  end.

Definition upsert (q : Filter) (doc : Document) (c : t) : UpdateResult * t :=
  match set_first q doc c with
  | Some (old, c') =>
      ({| matched_count := 1;
          modified_count := if decide (old = doc) then 0 else 1;
          upserted := false |}, c')
  | None =>
      ({| matched_count := 0; modified_count := 0; upserted := true |},
       c ++ [doc])
  end.

(** The encoding of a document for the store.  An integer takes 4 or 8
    bytes; an integer that needs more makes the driver raise
    [OverflowError].  An instant is kept as a whole number of
    milliseconds. *)
Inductive Exception := OverflowError.

Inductive Outcome (A : Type) : Type :=
  | Returned (a : A)
  | Raised (e : Exception).
Arguments Returned {A} a.
Arguments Raised {A} e.

Definition int64 (v : Z) : bool := (- 2 ^ 63 <=? v) && (v <? 2 ^ 63).

Definition encodable (doc : Document) : bool :=
  int64 (GameData.current_level doc) && int64 (GameData.max_level doc) &&
  int64 (GameData.total_score doc) && int64 (GameData.items_collected doc) &&
  int64 (GameData.games_played doc).

Definition to_millis (instant : datetime) : datetime := instant / 1000 * 1000.

Definition encode (doc : Document) : Document :=
  {| GameData.player_id := GameData.player_id doc;
     GameData.current_level := GameData.current_level doc;
     GameData.max_level := GameData.max_level doc;
     GameData.total_score := GameData.total_score doc;
     GameData.items_collected := GameData.items_collected doc;
     GameData.games_played := GameData.games_played doc;
     GameData.last_played := to_millis <$> GameData.last_played doc |}.

(** [update_one(q, {"$set": doc}, upsert=True)] *)
Definition update_one (q : Filter) (doc : Document) (c : t)
  : Outcome (UpdateResult * t) :=
  if encodable doc then Returned (upsert q (encode doc) c)
  else Raised OverflowError.

Record DeleteResult := { deleted_count : Z }.

Fixpoint delete_one (q : Filter) (c : t) : DeleteResult * t :=
  match c with
  | [] => ({| deleted_count := 0 |}, [])
  | d :: c' =>
      if matches q d then ({| deleted_count := 1 |}, c')
      else let (r, c'') := delete_one q c' in (r, d :: c'')
  end.

(** [find().sort(spec)]: the documents ordered by the keys of [spec] in
    turn.  pymongo's [DESCENDING] is [-1].  The order among documents
    that agree on every key is the store's choice; it is fixed here by
    the merge sort, and no statement below depends on it. *)
Inductive Direction := ASCENDING | DESCENDING.

Fixpoint compare_docs (spec : list (Field * Direction)) (d1 d2 : Document)
  : comparison :=
  match spec with
  | [] => Eq
  | (f, dir) :: spec' =>
      match get f d1 ?= get f d2 with
      | Eq => compare_docs spec' d1 d2
      | o => match dir with ASCENDING => o | DESCENDING => CompOpp o end
      end
  end.

Definition precedes (spec : list (Field * Direction)) : relation Document :=
  fun d1 d2 => compare_docs spec d1 d2 <> Gt.

#[global] Instance precedes_dec spec d1 d2 : Decision (precedes spec d1 d2).
Proof. unfold precedes. solve_decision. Defined.

Definition sort (spec : list (Field * Direction)) (c : t) : list Document :=
  merge_sort (precedes spec) c.

(** [cursor.limit(n)]: a limit of 0 is no limit.  For a negative [n] the
    server is asked for [abs(n)] documents in a single batch and sends the
    first [first_batch] of them, as many as it puts in that batch; for a
    positive [n] the cursor fetches batch after batch, and [first_batch]
    plays no part. *)
Definition limit (first_batch : nat) (n : Z) (l : list Document) : list Document :=
  if n =? 0 then l
  else if 0 <? n then take (Z.to_nat n) l
  else take (Nat.min (Z.abs_nat n) first_batch) l.

(** [aggregate([{"$group": {"_id": None, key: acc, ...}}])]: one group
    holding every document, hence no output for an empty collection. *)
Inductive Accumulator := Sum (f : Field) | Max (f : Field).

Definition accumulate (a : Accumulator) (d : Document) (ds : list Document) : Z :=
  match a with
  | Sum f => fold_left (fun acc x => acc + get f x) ds (get f d)
  | Max f => fold_left (fun acc x => Z.max acc (get f x)) ds (get f d)
  end.

Definition aggregate_group (spec : list (string * Accumulator)) (c : t)
  : list (gmap string Z) :=
  match c with
  | [] => []
  | d :: ds => [list_to_map (map (fun ka => (fst ka, accumulate (snd ka) d ds)) spec)]
  end.

End Collection.

(** ** The handlers *)

Import Collection (Field, Filter, Cond, Direction, Accumulator).

(** What a handler whose store call can raise answers: its JSON body with
    status 200, or the [HTTPException] of its [except] arm, whose detail is
    the given text followed by the text of the exception [e]. *)
Inductive Response (A : Type) : Type :=
  | OK (body : A)
  | HTTPException (status_code : Z) (detail : string) (e : Collection.Exception).
Arguments OK {A} body.
Arguments HTTPException {A} status_code detail e.

Definition status_code {A} (response : Response A) : Z :=
  match response with
  | OK _ => 200
  | HTTPException status_code _ _ => status_code
  end.

(** [GET /api/game-data/{player_id}] *)
Definition get_game_data (player_id : string) (game_data_collection : Collection.t)
  : Document :=
  match Collection.find_one (Collection.PlayerId player_id) game_data_collection with
  | None =>
      {| GameData.player_id := player_id;
         GameData.current_level := 1;
         GameData.max_level := 1;
         GameData.total_score := 0;
         GameData.items_collected := 0;
         GameData.games_played := 0;
         GameData.last_played := None |}
  | Some game_data => game_data
  end.

(** [POST /api/game-data] *)
Module SaveResponse.
Record t := mk {
  success : bool;
  message : string;
  modified_count : Z;
  upserted : bool     (* whether [upserted_id] is an id rather than None *)
}.
End SaveResponse.

Definition with_last_played (now : datetime) (g : GameData.t) : GameData.t :=
  {| GameData.player_id := GameData.player_id g;
     GameData.current_level := GameData.current_level g;
     GameData.max_level := GameData.max_level g;
     GameData.total_score := GameData.total_score g;
     GameData.items_collected := GameData.items_collected g;
     GameData.games_played := GameData.games_played g;
     GameData.last_played := Some now |}.

Definition save_game_data (now : datetime) (game_data : GameData.t)
    (game_data_collection : Collection.t)
  : Response SaveResponse.t * Collection.t :=
  let game_data := with_last_played now game_data in
  match
    Collection.update_one (Collection.PlayerId (GameData.player_id game_data))
      game_data game_data_collection
  with
  | Collection.Returned (result, c) =>
      (OK {| SaveResponse.success := true;
             SaveResponse.message := "Game data saved successfully";
             SaveResponse.modified_count := Collection.modified_count result;
             SaveResponse.upserted := Collection.upserted result |}, c)
  | Collection.Raised e =>
      (HTTPException 500 "Error saving game data: " e, game_data_collection)
  end.

(** [POST /api/game-session] *)
Module SessionResponse.
Record t := mk {
  success : bool;
  message : string;
  updated_data : Document
}.
End SessionResponse.

Definition record_game_session (now : datetime) (session : GameSession.t)
    (game_data_collection : Collection.t)
  : Response SessionResponse.t * Collection.t :=
  let current_data :=
    Collection.find_one (Collection.PlayerId (GameSession.player_id session))
      game_data_collection in
  let new_data :=
    match current_data with
    | None =>
        {| GameData.player_id := GameSession.player_id session;
           GameData.current_level :=
             if GameSession.completed session then GameSession.level session else 1;
           GameData.max_level :=
             if GameSession.completed session then GameSession.level session else 1;
           GameData.total_score := GameSession.score session;
           GameData.items_collected := GameSession.items_collected session;
           GameData.games_played := 1;
           GameData.last_played := Some now |}
    | Some current_data =>
        {| GameData.player_id := GameSession.player_id session;
           GameData.current_level :=
             if GameSession.completed session then GameSession.level session
             else GameData.current_level current_data;
           GameData.max_level :=
             if GameSession.completed session
             then Z.max (GameSession.level session) (GameData.max_level current_data)
             else GameData.max_level current_data;
           GameData.total_score :=
             GameData.total_score current_data + GameSession.score session;
           GameData.items_collected :=
             GameData.items_collected current_data + GameSession.items_collected session;
           GameData.games_played := GameData.games_played current_data + 1;
           GameData.last_played := Some now |}
    end in
  match
    Collection.update_one (Collection.PlayerId (GameSession.player_id session))
      new_data game_data_collection
  with
  | Collection.Returned (_, c) =>
      (OK {| SessionResponse.success := true;
             SessionResponse.message := "Game session recorded successfully";
             SessionResponse.updated_data := new_data |}, c)
  | Collection.Raised e =>
      (HTTPException 500 "Error recording game session: " e, game_data_collection)
  end.

(** [GET /api/leaderboard?limit=N] *)
Module Entry.
Record t := mk {
  rank : Z;
  player_id : string;
  max_level : Z;
  total_score : Z;
  items_collected : Z;
  games_played : Z;
  last_played : option datetime
}.
End Entry.

Module LeaderboardResponse.
Record t := mk {
  leaderboard : list Entry.t;
  total_players : Z
}.
End LeaderboardResponse.

Definition leaderboard_sort : list (Field * Direction) :=
  [(Collection.max_level, Collection.DESCENDING);
   (Collection.total_score, Collection.DESCENDING)].

Definition format_entry (i : nat) (player : Document) : Entry.t :=
  {| Entry.rank := Z.of_nat i + 1;
     Entry.player_id := GameData.player_id player;
     Entry.max_level := GameData.max_level player;
     Entry.total_score := GameData.total_score player;
     Entry.items_collected := GameData.items_collected player;
     Entry.games_played := GameData.games_played player;
     Entry.last_played := GameData.last_played player |}.

Definition get_leaderboard (first_batch : nat) (limit : Z)
    (game_data_collection : Collection.t) : LeaderboardResponse.t :=
  let leaderboard :=
    Collection.limit first_batch limit
      (Collection.sort leaderboard_sort game_data_collection) in
  let formatted_leaderboard := imap format_entry leaderboard in
  {| LeaderboardResponse.leaderboard := formatted_leaderboard;
     LeaderboardResponse.total_players :=
       Collection.count_documents Collection.Everything game_data_collection |}.

(** [GET /api/player-rank/{player_id}] *)
Module PlayerData.
Record t := mk {
  player_id : string;
  max_level : Z;
  total_score : Z;
  items_collected : Z;
  games_played : Z
}.
End PlayerData.

Module RankResponse.
Inductive t :=
  | NotFound (message : string)                  (* {"rank": None, "message": ..} *)
  | Ranked (rank total_players : Z) (player_data : PlayerData.t).

Definition rank (r : t) : option Z :=
  match r with
  | NotFound _ => None
  | Ranked k _ _ => Some k
  end.
End RankResponse.

Definition better_players_query (player_data : Document) : Filter :=
  Collection.AnyOf
    [Collection.Where
       [(Collection.max_level,
         Collection.GreaterThan (GameData.max_level player_data))];
     Collection.Where
       [(Collection.max_level, Collection.Equals (GameData.max_level player_data));
        (Collection.total_score,
         Collection.GreaterThan (GameData.total_score player_data))]].

Definition get_player_rank (player_id : string) (game_data_collection : Collection.t)
  : RankResponse.t :=
  match Collection.find_one (Collection.PlayerId player_id) game_data_collection with
  | None => RankResponse.NotFound "Player not found"
  | Some player_data =>
      let better_players :=
        Collection.count_documents (better_players_query player_data)
          game_data_collection in
      let rank := better_players + 1 in
      let total_players :=
        Collection.count_documents Collection.Everything game_data_collection in
      RankResponse.Ranked rank total_players
        {| PlayerData.player_id := player_id;
           PlayerData.max_level := GameData.max_level player_data;
           PlayerData.total_score := GameData.total_score player_data;
           PlayerData.items_collected := GameData.items_collected player_data;
           PlayerData.games_played := GameData.games_played player_data |}
  end.

(** [GET /api/stats] *)
Module Stats.
Record t := mk {
  total_players : Z;
  total_score : Z;
  total_items_collected : Z;
  total_games_played : Z;
  max_level_reached : Z;
  average_score_per_player : Q
}.
End Stats.

Definition stats_pipeline : list (string * Accumulator) :=
  [("total_score", Collection.Sum Collection.total_score);
   ("total_items_collected", Collection.Sum Collection.items_collected);
   ("total_games_played", Collection.Sum Collection.games_played);
   ("max_level_reached", Collection.Max Collection.max_level)]%string.

(** [stats.get(key, default)] on the result of the aggregation. *)
Definition dict_get (stats : gmap string Z) (key : string) (dflt : Z) : Z :=
  default dflt (stats !! key).

(** [a / b] for Python integers with [b] positive. *)
Definition true_div (a b : Z) : Q := Qmake a (Z.to_pos b).

Definition get_game_statistics (game_data_collection : Collection.t) : Stats.t :=
  let total_players :=
    Collection.count_documents Collection.Everything game_data_collection in
  let stats_result := Collection.aggregate_group stats_pipeline game_data_collection in
  match stats_result with
  | stats :: _ =>
      {| Stats.total_players := total_players;
         Stats.total_score := dict_get stats "total_score" 0;
         Stats.total_items_collected := dict_get stats "total_items_collected" 0;
         Stats.total_games_played := dict_get stats "total_games_played" 0;
         Stats.max_level_reached := dict_get stats "max_level_reached" 1;
         Stats.average_score_per_player :=
           true_div (dict_get stats "total_score" 0) (Z.max total_players 1) |}
  | [] =>
      {| Stats.total_players := 0;
         Stats.total_score := 0;
         Stats.total_items_collected := 0;
         Stats.total_games_played := 0;
         Stats.max_level_reached := 1;
         Stats.average_score_per_player := 0%Q |}
  end.

(** [DELETE /api/admin/reset-player/{player_id}] *)
Module ResetResponse.
Record t := mk {
  success : bool;
  message : string;
  deleted_count : Z
}.
End ResetResponse.

Definition reset_player_data (player_id : string) (game_data_collection : Collection.t)
  : ResetResponse.t * Collection.t :=
  let (result, c) :=
    Collection.delete_one (Collection.PlayerId player_id) game_data_collection in
  ({| ResetResponse.success := true;
      ResetResponse.message := "Player " +:+ player_id +:+ " data reset successfully";
      ResetResponse.deleted_count := Collection.deleted_count result |}, c).

(** ** Histories of requests

    The handlers that write, as requests; the reading handlers leave the
    collection as it is, and so does a write that is answered with status
    500.  A collection is reachable when a history of requests produces it
    from the empty collection. *)

Inductive Request :=
  | SaveGameData (now : datetime) (game_data : GameData.t)
  | RecordGameSession (now : datetime) (session : GameSession.t)
  | ResetPlayerData (player_id : string).

Definition handle (c : Collection.t) (r : Request) : Collection.t :=
  match r with
  | SaveGameData now game_data => snd (save_game_data now game_data c)
  | RecordGameSession now session => snd (record_game_session now session c)
  | ResetPlayerData player_id => snd (reset_player_data player_id c)
  end.

Definition run (history : list Request) : Collection.t :=
  fold_left handle history [].

(** The document stored for a player, if any. *)
Abbreviation stored pid c := (Collection.find_one (Collection.PlayerId pid) c).

(** ** Vocabulary of the specification *)

(** The record of a player who has no document. *)
Definition default_record (pid : string) : Document :=
  GameData.mk pid 1 1 0 0 0 None.

(** [d] is strictly better than [p]: a higher max_level, or the same
    max_level and a higher total_score. *)
Definition strictly_better (p d : Document) : Prop :=
  GameData.max_level p < GameData.max_level d \/
  (GameData.max_level d = GameData.max_level p /\
   GameData.total_score p < GameData.total_score d).

#[global] Instance strictly_better_dec p d : Decision (strictly_better p d).
Proof. unfold strictly_better. solve_decision. Defined.

(** Leaderboard order on pairs (max_level, total_score): the first is
    listed no later than the second. *)
Definition listed_before (k1 k2 : Z * Z) : Prop :=
  k2.1 < k1.1 \/ (k1.1 = k2.1 /\ k2.2 <= k1.2).

Definition doc_key (d : Document) : Z * Z :=
  (GameData.max_level d, GameData.total_score d).


(** The entry shows the fields of the document. *)
Definition entry_of (e : Entry.t) (d : Document) : Prop :=
  Entry.player_id e = GameData.player_id d /\
  Entry.max_level e = GameData.max_level d /\
  Entry.total_score e = GameData.total_score d /\
  Entry.items_collected e = GameData.items_collected d /\
  Entry.games_played e = GameData.games_played d /\
  Entry.last_played e = GameData.last_played d.

Definition sum_of (f : Document -> Z) (c : Collection.t) : Z :=
  foldr (fun d acc => f d + acc) 0 c.

Definition is_maximum_of (f : Document -> Z) (c : Collection.t) (m : Z) : Prop :=
  (exists d, d ∈ c /\ f d = m) /\ (forall d, d ∈ c -> f d <= m).

(** The field constraints of the data model. *)
Definition within_constraints (d : Document) : Prop :=
  1 <= GameData.current_level d /\ 1 <= GameData.max_level d /\
  0 <= GameData.total_score d /\ 0 <= GameData.items_collected d /\
  0 <= GameData.games_played d.

(** Requests whose numbers respect the data model: a save of a record
    within the constraints, a session with non-negative deltas and, when
    completed, a level of at least 1. *)
Definition respects_constraints (r : Request) : Prop :=
  match r with
  | SaveGameData _ game_data => within_constraints game_data
  | RecordGameSession _ session =>
      (GameSession.completed session = true -> 1 <= GameSession.level session) /\
      0 <= GameSession.score session /\ 0 <= GameSession.items_collected session
  | ResetPlayerData _ => True
  end.

(** The request writes a document for the player. *)
Definition writes_to (pid : string) (r : Request) : Prop :=
  match r with
  | SaveGameData _ game_data => GameData.player_id game_data = pid
  | RecordGameSession _ session => GameSession.player_id session = pid
  | ResetPlayerData _ => False
  end.

(** At most one document per player identifier. *)
Definition one_document_per_player (c : Collection.t) : Prop :=
  NoDup (GameData.player_id <$> c).

(** Sample documents. *)
Definition alice : Document := GameData.mk "alice" 3 3 150 25 5 (Some 10000).
Definition bob : Document := GameData.mk "bob" 5 5 90 7 2 (Some 11000).
Definition carol : Document := GameData.mk "carol" 3 3 150 4 9 (Some 12000).

(** The history of the test suite: a save, two completed sessions and an
    abandoned one, then a reset of another player. *)
Definition test_history : list Request :=
  [SaveGameData 1000 (GameData.mk "jovinho_player_1" 3 3 150 25 5 None);
   RecordGameSession 2000 (GameSession.mk "jovinho_player_1" 4 75 12 true (Some 120));
   RecordGameSession 3000 (GameSession.mk "jovinho_player_1" 5 100 15 true (Some 180));
   RecordGameSession 4000 (GameSession.mk "jovinho_player_1" 6 50 8 false (Some 90));
   SaveGameData 5000 (GameData.mk "test_reset_player" 2 2 50 10 2 None);
   ResetPlayerData "test_reset_player"].

(** ** Vocabulary for histories *)

(** The player a request names. *)
Definition request_player (r : Request) : string :=
  match r with
  | SaveGameData _ game_data => GameData.player_id game_data
  | RecordGameSession _ session => GameSession.player_id session
  | ResetPlayerData player_id => player_id
  end.

(** The request replaces or removes the player's document wholesale: a
    save or a reset naming the player. *)
Definition overwrites (pid : string) (r : Request) : Prop :=
  match r with
  | SaveGameData _ game_data => GameData.player_id game_data = pid
  | RecordGameSession _ _ => False
  | ResetPlayerData player_id => player_id = pid
  end.

(** The five counters of the record fit in signed 64-bit integers. *)
Definition in_int64 (v : Z) : Prop := - 2 ^ 63 <= v < 2 ^ 63.

Definition storable (d : Document) : Prop :=
  in_int64 (GameData.current_level d) /\ in_int64 (GameData.max_level d) /\
  in_int64 (GameData.total_score d) /\ in_int64 (GameData.items_collected d) /\
  in_int64 (GameData.games_played d).

#[global] Instance storable_dec d : Decision (storable d).
Proof. unfold storable, in_int64. solve_decision. Defined.

(** The record as the store keeps it: the instant to the millisecond. *)
Definition kept (d : Document) : Document :=
  {| GameData.player_id := GameData.player_id d;
     GameData.current_level := GameData.current_level d;
     GameData.max_level := GameData.max_level d;
     GameData.total_score := GameData.total_score d;
     GameData.items_collected := GameData.items_collected d;
     GameData.games_played := GameData.games_played d;
     GameData.last_played :=
       match GameData.last_played d with
       | Some instant => Some (instant / 1000 * 1000)
       | None => None
       end |}.

(** The record a session asks the store to keep, given the document the
    player has, if any. *)
Definition merged_record (now : datetime) (s : GameSession.t)
    (current_data : option Document) : Document :=
  match current_data with
  | None =>
      GameData.mk (GameSession.player_id s)
        (if GameSession.completed s then GameSession.level s else 1)
        (if GameSession.completed s then GameSession.level s else 1)
        (GameSession.score s) (GameSession.items_collected s) 1 (Some now)
  | Some prior =>
      GameData.mk (GameSession.player_id s)
        (if GameSession.completed s then GameSession.level s
         else GameData.current_level prior)
        (if GameSession.completed s
         then Z.max (GameSession.level s) (GameData.max_level prior)
         else GameData.max_level prior)
        (GameData.total_score prior + GameSession.score s)
        (GameData.items_collected prior + GameSession.items_collected s)
        (GameData.games_played prior + 1) (Some now)
  end.

(** The status with which the request is answered on the collection. *)
Definition answer_status (c : Collection.t) (r : Request) : Z :=
  match r with
  | SaveGameData now game_data => status_code (fst (save_game_data now game_data c))
  | RecordGameSession now session => status_code (fst (record_game_session now session c))
  | ResetPlayerData _ => 200
  end.

Definition accepted (c : Collection.t) (r : Request) : Prop := answer_status c r = 200.

#[global] Instance accepted_dec c r : Decision (accepted c r).
Proof. unfold accepted. solve_decision. Defined.

(** The sessions of a history that name the player and are answered with
    status 200 when the history runs from [c], in order. *)
Fixpoint accepted_sessions (pid : string) (history : list Request) (c : Collection.t)
  : list GameSession.t :=
  match history with
  | [] => []
  | r :: history' =>
      match r with
      | RecordGameSession _ session =>
          if decide (GameSession.player_id session = pid /\ accepted c r)
          then session :: accepted_sessions pid history' (handle c r)
          else accepted_sessions pid history' (handle c r)
      | _ => accepted_sessions pid history' (handle c r)
      end
  end.

Definition total_of (f : GameSession.t -> Z) (sessions : list GameSession.t) : Z :=
  foldr (fun s acc => f s + acc) 0 sessions.

#[global] Instance listed_before_dec k1 k2 : Decision (listed_before k1 k2).
Proof. unfold listed_before. solve_decision. Defined.

(** ** The remaining handlers of [server.py] *)

(** [GET /api/] *)
Definition read_root : string := "Meu Jovinho Game API is running!".

(** [GET /api/health].  [ismaster] is the outcome of
    [client.admin.command('ismaster')]: [None] when it returns, [Some e]
    when it raises an exception whose text is [e]. *)
Module HealthResponse.
Record t := mk {
  status : string;
  database : option string;
  error : option string
}.
End HealthResponse.

Definition health_check (ismaster : option string) : HealthResponse.t :=
  match ismaster with
  | None =>
      {| HealthResponse.status := "healthy";
         HealthResponse.database := Some "connected"%string;
         HealthResponse.error := None |}
  | Some e =>
      {| HealthResponse.status := "unhealthy";
         HealthResponse.database := None;
         HealthResponse.error := Some e |}
  end.

(** ** The test suite, [backend_test.py]

    The tester talks to a backend that runs the handlers above.  A backend
    is its collection together with the number of instants its handlers
    have read so far; [clock n] is the instant of reading number [n], and
    [first_batch] is what the store puts in a single batch.  Every request
    reaches the backend, so the [except] arms of the tests, which only log
    and return [False], are not reached; a request to a handler that
    cannot raise is answered with status 200.  Logging and the pauses
    between tests are left out. *)

Record Backend := {
  collection : Collection.t;
  instants_read : nat
}.

Definition Client (A : Type) : Type := Backend -> A * Backend.

#[global] Instance client_ret : MRet Client := fun A x b => (x, b).
#[global] Instance client_bind : MBind Client :=
  fun A B f m b => let (x, b') := m b in f x b'.

Section tester.
Variable clock : nat -> datetime.
Variable first_batch : nat.
Variable ismaster : option string.

(** A handler that reads the instant once and may change the collection. *)
Definition writing {A} (handler : datetime -> Collection.t -> A * Collection.t)
  : Client A :=
  fun b =>
    let (response, c) := handler (clock (instants_read b)) (collection b) in
    (response, {| collection := c; instants_read := S (instants_read b) |}).

Definition reading {A} (handler : Collection.t -> A) : Client A :=
  fun b => (handler (collection b), b).

Definition request_health : Client HealthResponse.t :=
  reading (fun _ => health_check ismaster).
Definition request_game_data (player_id : string) : Client Document :=
  reading (get_game_data player_id).
Definition post_game_data (game_data : GameData.t)
  : Client (Response SaveResponse.t) :=
  writing (fun now => save_game_data now game_data).
Definition post_game_session (session : GameSession.t)
  : Client (Response SessionResponse.t) :=
  writing (fun now => record_game_session now session).
Definition request_leaderboard : Client LeaderboardResponse.t :=
  reading (get_leaderboard first_batch 10).
Definition request_player_rank (player_id : string) : Client RankResponse.t :=
  reading (get_player_rank player_id).
Definition request_stats : Client Stats.t :=
  reading get_game_statistics.
Definition delete_reset_player (player_id : string) : Client ResetResponse.t :=
  fun b =>
    let (response, c) := reset_player_data player_id (collection b) in
    (response, {| collection := c; instants_read := instants_read b |}).

Definition test_player_id : string := "jovinho_player_1".

(** [pattern in text] *)
Definition contains (pattern text : string) : bool :=
  match String.index 0 pattern text with
  | Some _ => true
  | None => false
  end.

Definition test_health_check : Client bool :=
  data ← request_health;
  mret (bool_decide (HealthResponse.status data = "healthy") &&
        bool_decide (HealthResponse.database data = Some "connected"%string)).

Definition test_get_new_player_data : Client bool :=
  data ← request_game_data test_player_id;
  mret (bool_decide (GameData.player_id data = test_player_id) &&
        (GameData.current_level data =? 1) &&
        (GameData.max_level data =? 1) &&
        (GameData.total_score data =? 0) &&
        (GameData.items_collected data =? 0) &&
        (GameData.games_played data =? 0) &&
        bool_decide (GameData.last_played data = None)).

Definition test_save_game_data : Client bool :=
  response ← post_game_data (GameData.mk test_player_id 3 3 150 25 5 None);
  mret match response with
       | OK data =>
           SaveResponse.success data &&
           contains "Game data saved successfully" (SaveResponse.message data)
       | HTTPException _ _ _ => false
       end.

Definition test_get_saved_player_data : Client bool :=
  data ← request_game_data test_player_id;
  mret (bool_decide (GameData.player_id data = test_player_id) &&
        (GameData.current_level data =? 3) &&
        (GameData.max_level data =? 3) &&
        (GameData.total_score data =? 150) &&
        (GameData.items_collected data =? 25) &&
        (GameData.games_played data =? 5) &&
        negb (bool_decide (GameData.last_played data = None))).

Definition test_sessions : list GameSession.t :=
  [GameSession.mk test_player_id 4 75 12 true (Some 120);
   GameSession.mk test_player_id 5 100 15 true (Some 180);
   GameSession.mk test_player_id 6 50 8 false (Some 90)].

Fixpoint post_sessions (sessions : list GameSession.t) (success_count : nat)
  : Client nat :=
  match sessions with
  | [] => mret success_count
  | session :: sessions' =>
      response ← post_game_session session;
      post_sessions sessions'
        match response with
        | OK data =>
            if SessionResponse.success data then S success_count else success_count
        | HTTPException _ _ _ => success_count
        end
  end.

Definition test_record_game_sessions : Client bool :=
  success_count ← post_sessions test_sessions 0;
  mret (bool_decide (success_count = length test_sessions)).

(** The loop over the entries sets [player_found] at the test player's
    entry; its [break] only ends the loop early. *)
Definition test_leaderboard : Client bool :=
  data ← request_leaderboard;
  mret (existsb (fun entry => bool_decide (Entry.player_id entry = test_player_id))
          (LeaderboardResponse.leaderboard data)).

Definition test_player_rank : Client bool :=
  data ← request_player_rank test_player_id;
  mret match data with
       | RankResponse.NotFound _ => false      (* no total_players, no player_data *)
       | RankResponse.Ranked rank _ player_data =>
           bool_decide (PlayerData.player_id player_data = test_player_id) &&
           (5 <=? PlayerData.max_level player_data)
       end.

Definition test_game_statistics : Client bool :=
  data ← request_stats;
  mret ((1 <=? Stats.total_players data) &&
        (0 <? Stats.total_score data) &&
        (5 <=? Stats.max_level_reached data)).

Definition test_reset_player : string := "test_reset_player".

Definition test_admin_reset_player : Client bool :=
  save_response ← post_game_data (GameData.mk test_reset_player 2 2 50 10 2 None);
  match save_response with
  | HTTPException _ _ _ => mret false
  | OK _ =>
      data ← delete_reset_player test_reset_player;
      if ResetResponse.success data && (ResetResponse.deleted_count data =? 1) then
        verify_data ← request_game_data test_reset_player;
        mret ((GameData.total_score verify_data =? 0) &&
              (GameData.games_played verify_data =? 0))
      else mret false
  end.

Definition tests : list (Client bool) :=
  [test_health_check;
   test_get_new_player_data;
   test_save_game_data;
   test_get_saved_player_data;
   test_record_game_sessions;
   test_leaderboard;
   test_player_rank;
   test_game_statistics;
   test_admin_reset_player].

Fixpoint run_tests (tests : list (Client bool)) (passed failed : nat)
  : Client (nat * nat) :=
  match tests with
  | [] => mret (passed, failed)
  | test :: tests' =>
      test ≫= fun ok : bool =>
        if ok then run_tests tests' (S passed) failed
        else run_tests tests' passed (S failed)
  end.

Definition run_all_tests : Client (nat * nat) := run_tests tests 0%nat 0%nat.

End tester.

(** The writes that one run of the suite sends, in order, when the backend
    has read [n] instants before. *)
Definition suite_history (clock : nat -> datetime) (n : nat) : list Request :=
  [SaveGameData (clock n) (GameData.mk test_player_id 3 3 150 25 5 None);
   RecordGameSession (clock (1 + n)%nat) (GameSession.mk test_player_id 4 75 12 true (Some 120));
   RecordGameSession (clock (2 + n)%nat) (GameSession.mk test_player_id 5 100 15 true (Some 180));
   RecordGameSession (clock (3 + n)%nat) (GameSession.mk test_player_id 6 50 8 false (Some 90));
   SaveGameData (clock (4 + n)%nat) (GameData.mk test_reset_player 2 2 50 10 2 None);
   ResetPlayerData test_reset_player].

(** The record of the test player after the sessions of the suite. *)
Definition suite_record (clock : nat -> datetime) (n : nat) : Document :=
  GameData.mk test_player_id 5 5 375 60 8
    (Some (Collection.to_millis (clock (3 + n)%nat))).

(** ** Facts about the collection *)

Section collection_facts.
Implicit Types (c l : Collection.t) (d doc : Document) (q : Filter) (pid : string).

Lemma matches_PlayerId pid d :
  Collection.matches (Collection.PlayerId pid) d = true <-> GameData.player_id d = pid.
Proof. simpl. apply bool_decide_eq_true. Qed.

Lemma not_matches_PlayerId pid d :
  Collection.matches (Collection.PlayerId pid) d = false <-> GameData.player_id d <> pid.
Proof. simpl. apply bool_decide_eq_false. Qed.

Lemma find_one_Some q c d :
  Collection.find_one q c = Some d -> d ∈ c /\ Collection.matches q d = true.
Proof.
  unfold Collection.find_one. intros [Hin Hm]%find_some.
  split; [by apply list_elem_of_In | done].
Qed.

Lemma find_one_None q c :
  Collection.find_one q c = None <-> forall d, d ∈ c -> Collection.matches q d = false.
Proof.
  unfold Collection.find_one. split.
  - intros Hnone d Hd%list_elem_of_In. by eapply find_none.
  - induction c as [|d c IH]; intros Hall; [done|]. simpl.
    rewrite (Hall d) by left. apply IH. intros d' Hd'. apply Hall. by right.
Qed.

Lemma find_one_app q l1 l2 :
  Collection.find_one q (l1 ++ l2) =
    match Collection.find_one q l1 with
    | Some d => Some d
    | None => Collection.find_one q l2
    end.
Proof.
  unfold Collection.find_one. induction l1 as [|d l1 IH]; simpl; [done|].
  by destruct (Collection.matches q d).
Qed.

Lemma find_one_cons q d l :
  Collection.find_one q (d :: l) =
    if Collection.matches q d then Some d else Collection.find_one q l.
Proof. done. Qed.

Lemma find_one_middle q l1 d l2 :
  Collection.find_one q l1 = None ->
  Collection.matches q d = true ->
  Collection.find_one q (l1 ++ d :: l2) = Some d.
Proof. intros Hl1 Hd. by rewrite find_one_app, Hl1, find_one_cons, Hd. Qed.

Lemma stored_player_id pid c d : stored pid c = Some d -> GameData.player_id d = pid.
Proof. intros [_ Hm]%find_one_Some. by apply matches_PlayerId. Qed.

(** [upsert]: the first match is replaced where it stands, or the
    document is appended. *)
Lemma set_first_Some q doc c old c' :
  Collection.set_first q doc c = Some (old, c') ->
  exists l1 l2, c = l1 ++ old :: l2 /\ c' = l1 ++ doc :: l2 /\
    Collection.matches q old = true /\ Collection.find_one q l1 = None.
Proof.
  revert c'. induction c as [|d c IH]; intros c'; simpl; [done|].
  destruct (Collection.matches q d) eqn:Hd.
  - intros [= <- <-]. by exists [], c.
  - destruct (Collection.set_first q doc c) as [[old' c'']|] eqn:Hs; [|done].
    intros [= <- <-]. destruct (IH _ eq_refl) as (l1 & l2 & -> & -> & Hold & Hl1).
    exists (d :: l1), l2. repeat split; [done|]. by rewrite find_one_cons, Hd.
Qed.

Lemma set_first_None q doc c :
  Collection.set_first q doc c = None <-> Collection.find_one q c = None.
Proof.
  induction c as [|d c IH]; [done|]. rewrite find_one_cons. simpl.
  destruct (Collection.matches q d); [done|].
  destruct (Collection.set_first q doc c) as [[??]|]; [|tauto].
  split; [done|]. intros H. by apply IH in H.
Qed.

Lemma upsert_cases pid doc c :
  let c' := snd (Collection.upsert (Collection.PlayerId pid) doc c) in
  (exists old l1 l2, stored pid c = Some old /\ stored pid l1 = None /\
                     c = l1 ++ old :: l2 /\ c' = l1 ++ doc :: l2) \/
  (stored pid c = None /\ c' = c ++ [doc]).
Proof.
  unfold Collection.upsert.
  destruct (Collection.set_first _ doc c) as [[old c']|] eqn:Hs; simpl.
  - left. apply set_first_Some in Hs as (l1 & l2 & -> & -> & Hold & Hl1).
    exists old, l1, l2. by rewrite find_one_middle.
  - right. by apply set_first_None in Hs.
Qed.

(** After the upsert the player's document is the one written. *)
Lemma stored_upsert pid doc c :
  GameData.player_id doc = pid ->
  stored pid (snd (Collection.upsert (Collection.PlayerId pid) doc c)) = Some doc.
Proof.
  intros Hpid%matches_PlayerId.
  destruct (upsert_cases pid doc c) as [(old & l1 & l2 & _ & Hl1 & _ & ->)|[Hc ->]].
  - by apply find_one_middle.
  - by apply find_one_middle.
Qed.

(** The documents of the other players stay as they are. *)
Lemma upsert_others pid pid' doc c :
  GameData.player_id doc = pid -> pid' <> pid ->
  stored pid' (snd (Collection.upsert (Collection.PlayerId pid) doc c)) = stored pid' c.
Proof.
  intros Hdoc Hne.
  assert (forall d, GameData.player_id d = pid ->
            Collection.matches (Collection.PlayerId pid') d = false) as Hother.
  { intros d Hd. apply not_matches_PlayerId. congruence. }
  destruct (upsert_cases pid doc c) as [(old & l1 & l2 & Hold & _ & -> & ->)|[_ ->]].
  - apply stored_player_id in Hold.
    by rewrite !find_one_app, !find_one_cons, !Hother.
  - rewrite find_one_app, find_one_cons, Hother by done. by destruct (stored pid' c).
Qed.

Lemma upsert_elem_of pid doc c d :
  d ∈ snd (Collection.upsert (Collection.PlayerId pid) doc c) -> d = doc \/ d ∈ c.
Proof.
  destruct (upsert_cases pid doc c) as [(old & l1 & l2 & _ & _ & -> & ->)|[_ ->]];
    rewrite !elem_of_app, ?elem_of_cons, ?elem_of_nil; tauto.
Qed.

Lemma upsert_unique pid doc c :
  GameData.player_id doc = pid ->
  one_document_per_player c ->
  one_document_per_player (snd (Collection.upsert (Collection.PlayerId pid) doc c)).
Proof.
  unfold one_document_per_player. intros Hpid Hc.
  destruct (upsert_cases pid doc c)
    as [(old & l1 & l2 & Hold & _ & -> & ->)|[Hnone ->]].
  - apply stored_player_id in Hold.
    rewrite fmap_app, fmap_cons in *. by rewrite Hpid, <- Hold.
  - rewrite fmap_app. apply NoDup_app. split; [done|]. split; [|apply NoDup_singleton].
    intros x (d & Hx & Hd)%list_elem_of_fmap Hdoc%list_elem_of_singleton.
    rewrite find_one_None in Hnone. specialize (Hnone d Hd).
    apply not_matches_PlayerId in Hnone. congruence.
Qed.

(** [delete_one]: the first match is removed, or nothing is. *)
Lemma delete_one_cases pid c :
  (exists d l1 l2, stored pid c = Some d /\ stored pid l1 = None /\
     c = l1 ++ d :: l2 /\
     Collection.delete_one (Collection.PlayerId pid) c =
       ({| Collection.deleted_count := 1 |}, l1 ++ l2)) \/
  (stored pid c = None /\
   Collection.delete_one (Collection.PlayerId pid) c =
     ({| Collection.deleted_count := 0 |}, c)).
Proof.
  induction c as [|d c IH]; [by right|].
  rewrite find_one_cons. cbn [Collection.delete_one].
  destruct (Collection.matches (Collection.PlayerId pid) d) eqn:Hd.
  - left. by exists d, [], c.
  - destruct IH as [(d0 & l1 & l2 & Hsome & Hl1 & -> & ->)|[Hnone ->]].
    + left. exists d0, (d :: l1), l2. repeat split; [done|].
      by rewrite find_one_cons, Hd.
    + by right.
Qed.

Lemma delete_one_elem_of pid c d :
  d ∈ snd (Collection.delete_one (Collection.PlayerId pid) c) -> d ∈ c.
Proof.
  destruct (delete_one_cases pid c) as [(d0 & l1 & l2 & _ & _ & -> & ->)|[_ ->]];
    simpl; rewrite ?elem_of_app, ?elem_of_cons; tauto.
Qed.

Lemma delete_one_unique pid c :
  one_document_per_player c ->
  one_document_per_player (snd (Collection.delete_one (Collection.PlayerId pid) c)).
Proof.
  unfold one_document_per_player.
  destruct (delete_one_cases pid c) as [(d0 & l1 & l2 & _ & _ & -> & ->)|[_ ->]];
    simpl; [|done].
  rewrite !fmap_app, fmap_cons, <- Permutation_middle. by intros [_ H]%NoDup_cons.
Qed.

(** With one document per player, the deletion leaves the player without
    a document. *)
Lemma delete_one_gone pid c :
  one_document_per_player c ->
  stored pid (snd (Collection.delete_one (Collection.PlayerId pid) c)) = None.
Proof.
  unfold one_document_per_player.
  destruct (delete_one_cases pid c) as [(d0 & l1 & l2 & Hd0 & _ & -> & ->)|[? ->]];
    simpl; [|done].
  intros Hnodup. apply find_one_None. intros d Hd.
  apply not_matches_PlayerId. intros Heq.
  apply stored_player_id in Hd0.
  rewrite fmap_app, fmap_cons, <- Permutation_middle in Hnodup.
  apply NoDup_cons in Hnodup as [Hnotin _].
  apply Hnotin. rewrite <- fmap_app, Hd0, <- Heq. by apply list_elem_of_fmap_2.
Qed.

Lemma delete_one_others pid pid' c :
  pid' <> pid ->
  stored pid' (snd (Collection.delete_one (Collection.PlayerId pid) c)) = stored pid' c.
Proof.
  intros Hne.
  destruct (delete_one_cases pid c) as [(d0 & l1 & l2 & Hd0 & _ & -> & ->)|[? ->]];
    simpl; [|done].
  apply stored_player_id in Hd0.
  assert (Collection.matches (Collection.PlayerId pid') d0 = false) as Hm.
  { apply not_matches_PlayerId. congruence. }
  by rewrite !find_one_app, find_one_cons, Hm.
Qed.

Lemma count_everything c :
  Collection.count_documents Collection.Everything c = Z.of_nat (length c).
Proof.
  unfold Collection.count_documents. f_equal.
  induction c as [|d c IH]; [done|]. rewrite filter_cons_True by done.
  rewrite !length_cons. by rewrite IH.
Qed.
End collection_facts.

(** The order of [sort] is total and transitive, so the result is sorted
    throughout. *)
Section sort_order.
Variable spec : list (Field * Direction).

Lemma compare_docs_antisym d1 d2 :
  Collection.compare_docs spec d2 d1 = CompOpp (Collection.compare_docs spec d1 d2).
Proof.
  induction spec as [|[f dir] spec' IH]; simpl; [done|].
  rewrite (Z.compare_antisym (Collection.get f d1) (Collection.get f d2)).
  destruct (Collection.get f d1 ?= Collection.get f d2), dir; simpl; auto.
Qed.

Lemma compare_docs_trans d1 d2 d3 :
  Collection.compare_docs spec d1 d2 <> Gt ->
  Collection.compare_docs spec d2 d3 <> Gt ->
  Collection.compare_docs spec d1 d3 <> Gt.
Proof.
  induction spec as [|[f dir] spec' IH]; simpl; [done|].
  destruct (Z.compare_spec (Collection.get f d1) (Collection.get f d2)),
           (Z.compare_spec (Collection.get f d2) (Collection.get f d3)),
           (Z.compare_spec (Collection.get f d1) (Collection.get f d3)),
           dir; simpl; auto; try congruence; try lia.
Qed.

Lemma precedes_total : Total (Collection.precedes spec).
Proof.
  intros d1 d2. unfold Collection.precedes.
  rewrite (compare_docs_antisym d1 d2).
  destruct (Collection.compare_docs spec d1 d2); simpl; [left|left|right]; done.
Qed.

Lemma precedes_trans : Transitive (Collection.precedes spec).
Proof. intros d1 d2 d3. apply compare_docs_trans. Qed.

Lemma sort_sorted (c : Collection.t) :
  StronglySorted (Collection.precedes spec) (Collection.sort spec c).
Proof.
  pose proof precedes_total. pose proof precedes_trans.
  by apply StronglySorted_merge_sort.
Qed.

Lemma sort_permutation (c : Collection.t) : Collection.sort spec c ≡ₚ c.
Proof. apply merge_sort_Permutation. Qed.
End sort_order.

Lemma limit_positive (first_batch : nat) (n : Z) (l : list Document) :
  0 < n -> Collection.limit first_batch n l = take (Z.to_nat n) l.
Proof.
  intros Hn. unfold Collection.limit.
  destruct (Z.eqb_spec n 0) as [->|_]; [lia|].
  by destruct (Z.ltb_spec 0 n); [|lia].
Qed.

(** Whatever the limit, the cursor yields a prefix of the sorted documents. *)
Lemma limit_prefix (first_batch : nat) (n : Z) (l : list Document) :
  exists k, Collection.limit first_batch n l = take k l.
Proof.
  unfold Collection.limit. destruct (n =? 0).
  - exists (length l). by rewrite take_ge.
  - destruct (0 <? n); eauto.
Qed.


(** The accumulators of [$group]. *)
Lemma accumulate_Sum (f : Field) (d : Document) (ds : list Document) :
  Collection.accumulate (Collection.Sum f) d ds = sum_of (Collection.get f) (d :: ds).
Proof.
  simpl. generalize (Collection.get f d) as a.
  induction ds as [|x ds IH]; intros a; simpl; [lia|].
  rewrite IH. unfold sum_of. lia.
Qed.

Lemma fold_max_spec (f : Document -> Z) (ds : list Document) (a : Z) :
  let m := fold_left (fun acc x => Z.max acc (f x)) ds a in
  a <= m /\ (forall x, x ∈ ds -> f x <= m) /\ (m = a \/ exists x, x ∈ ds /\ f x = m).
Proof.
  revert a. induction ds as [|x ds IH]; intros a; simpl.
  - split; [lia|]. split; [by intros ? ?%elem_of_nil|by left].
  - destruct (IH (Z.max a (f x))) as (Hge & Hall & Hwit).
    split; [lia|]. split.
    + intros y [->|Hy]%elem_of_cons; [lia|by apply Hall].
    + destruct Hwit as [Hm|(y & Hy & Hm)].
      * destruct (Z.max_spec a (f x)) as [[_ Hmax]|[_ Hmax]].
        -- right. exists x. split; [left|congruence].
        -- left. congruence.
      * right. exists y. split; [by right|done].
Qed.

Lemma accumulate_Max (f : Field) (d : Document) (ds : list Document) :
  is_maximum_of (Collection.get f) (d :: ds)
    (Collection.accumulate (Collection.Max f) d ds).
Proof.
  simpl. destruct (fold_max_spec (Collection.get f) ds (Collection.get f d))
    as (Hge & Hall & Hwit).
  split.
  - destruct Hwit as [Hm|(y & Hy & Hm)].
    + exists d. split; [left|done].
    + exists y. split; [by right|done].
  - intros y [->|Hy]%elem_of_cons; [done|by apply Hall].
Qed.

(** ** The scenario of the test suite *)

Example scenario_history_result :
  run test_history = [GameData.mk "jovinho_player_1" 5 5 375 60 8 (Some 4000)].
Proof. reflexivity. Qed.

Example scenario_get_new_player_data :
  get_game_data "jovinho_player_1" [] = GameData.mk "jovinho_player_1" 1 1 0 0 0 None.
Proof. reflexivity. Qed.

Example scenario_player_rank :
  get_player_rank "jovinho_player_1" (run test_history) =
    RankResponse.Ranked 1 1 (PlayerData.mk "jovinho_player_1" 5 375 60 8).
Proof. reflexivity. Qed.

Example scenario_leaderboard_ties :
  map (fun e => (Entry.rank e, Entry.max_level e, Entry.total_score e))
    (LeaderboardResponse.leaderboard (get_leaderboard 101 10 [alice; bob; carol])) =
    [(1, 5, 90); (2, 3, 150); (3, 3, 150)] /\
  RankResponse.rank (get_player_rank "alice" [alice; bob; carol]) = Some 2 /\
  RankResponse.rank (get_player_rank "carol" [alice; bob; carol]) = Some 2.
Proof. repeat split. Qed.

Example scenario_game_statistics :
  get_game_statistics [alice; bob; carol] = Stats.mk 3 390 36 16 5 (390 # 3).
Proof. reflexivity. Qed.

Example scenario_overflow :
  record_game_session 1000 (GameSession.mk "max" 1 1 0 false None)
    [GameData.mk "max" 1 1 (2 ^ 63 - 1) 0 1 (Some 0)] =
    (HTTPException 500 "Error recording game session: " Collection.OverflowError,
     [GameData.mk "max" 1 1 (2 ^ 63 - 1) 0 1 (Some 0)]).
Proof. reflexivity. Qed.

(** ** What the writing handlers do to the collection *)

Lemma int64_in_int64 (v : Z) : Collection.int64 v = true <-> in_int64 v.
Proof.
  unfold Collection.int64, in_int64.
  rewrite andb_true_iff, Z.leb_le, Z.ltb_lt. done.
Qed.

Lemma encodable_storable (d : Document) : Collection.encodable d = true <-> storable d.
Proof.
  unfold Collection.encodable, storable.
  rewrite !andb_true_iff, !int64_in_int64. tauto.
Qed.

Lemma encode_kept (d : Document) : Collection.encode d = kept d.
Proof. unfold Collection.encode, kept. by destruct (GameData.last_played d). Qed.

Lemma update_one_storable (q : Filter) (doc : Document) (c : Collection.t) :
  Collection.update_one q doc c =
    if decide (storable doc) then Collection.Returned (Collection.upsert q (kept doc) c)
    else Collection.Raised Collection.OverflowError.
Proof.
  unfold Collection.update_one. rewrite encode_kept.
  destruct (Collection.encodable doc) eqn:Henc.
  - rewrite decide_True; [done|]. by apply encodable_storable.
  - rewrite decide_False; [done|]. rewrite <- encodable_storable. congruence.
Qed.

Lemma storable_with_last_played (now : datetime) (g : GameData.t) :
  storable (with_last_played now g) <-> storable g.
Proof. done. Qed.

(** The two outcomes of [save_game_data]. *)
Lemma save_game_data_eq (now : datetime) (g : GameData.t) (c : Collection.t) :
  let written := kept (with_last_played now g) in
  let q := Collection.PlayerId (GameData.player_id g) in
  save_game_data now g c =
    if decide (storable g) then
      (OK {| SaveResponse.success := true;
             SaveResponse.message := "Game data saved successfully";
             SaveResponse.modified_count :=
               Collection.modified_count (fst (Collection.upsert q written c));
             SaveResponse.upserted :=
               Collection.upserted (fst (Collection.upsert q written c)) |},
       snd (Collection.upsert q written c))
    else (HTTPException 500 "Error saving game data: " Collection.OverflowError, c).
Proof.
  intros written q. unfold save_game_data. cbn [with_last_played GameData.player_id].
  fold (with_last_played now g). rewrite update_one_storable.
  destruct (decide (storable (with_last_played now g))) as [Hs|Hs].
  - rewrite decide_True by done. fold q written.
    by destruct (Collection.upsert q written c).
  - by rewrite decide_False.
Qed.

(** The two outcomes of [record_game_session]. *)
Lemma record_game_session_eq (now : datetime) (s : GameSession.t) (c : Collection.t) :
  let new_data := merged_record now s (stored (GameSession.player_id s) c) in
  record_game_session now s c =
    if decide (storable new_data) then
      (OK {| SessionResponse.success := true;
             SessionResponse.message := "Game session recorded successfully";
             SessionResponse.updated_data := new_data |},
       snd (Collection.upsert (Collection.PlayerId (GameSession.player_id s))
              (kept new_data) c))
    else (HTTPException 500 "Error recording game session: " Collection.OverflowError, c).
Proof.
  intros new_data. unfold record_game_session.
  replace (match stored (GameSession.player_id s) c with
           | Some current_data => _ | None => _ end) with new_data
    by (unfold new_data, merged_record; by destruct (stored _ c)).
  rewrite update_one_storable. destruct (decide (storable new_data)); [|done].
  by destruct (Collection.upsert _ (kept new_data) c).
Qed.

Lemma merged_record_player_id (now : datetime) (s : GameSession.t)
    (current_data : option Document) :
  GameData.player_id (merged_record now s current_data) = GameSession.player_id s.
Proof. by destruct current_data. Qed.

Lemma reset_player_data_collection (pid : string) (c : Collection.t) :
  snd (reset_player_data pid c) = snd (Collection.delete_one (Collection.PlayerId pid) c).
Proof. unfold reset_player_data. by destruct (Collection.delete_one _ c). Qed.

(** A save or a session either is accepted and writes one document of the
    player, or is answered with status 500 and writes nothing. *)
Lemma handle_write (pid : string) (c : Collection.t) (r : Request) :
  writes_to pid r ->
  (accepted c r /\
   exists doc, GameData.player_id doc = pid /\ GameData.last_played doc <> None /\
     handle c r = snd (Collection.upsert (Collection.PlayerId pid) doc c)) \/
  (~ accepted c r /\ handle c r = c).
Proof.
  unfold accepted. destruct r as [now g|now s|pid']; simpl; [| |done].
  - intros <-. rewrite save_game_data_eq. cbv zeta.
    destruct (decide (storable g)); [left|right]; simpl; [|done].
    split; [done|]. exists (kept (with_last_played now g)). done.
  - intros <-. rewrite record_game_session_eq. cbv zeta.
    destruct (decide (storable _)); [left|right]; simpl; [|done].
    split; [done|]. eexists. split; [|split; [|done]].
    + apply merged_record_player_id.
    + by destruct (stored _ c).
Qed.

(** ** Invariants of histories *)

Lemma fold_handle_invariant (P : Collection.t -> Prop) (Q : Request -> Prop)
    (history : list Request) (c : Collection.t) :
  (forall c r, P c -> Q r -> P (handle c r)) ->
  P c -> Forall Q history -> P (fold_left handle history c).
Proof.
  intros Hstep. revert c.
  induction history as [|r history IH]; intros c Hc Hall; simpl; [done|].
  apply Forall_cons in Hall as [Hr Hall]. apply IH; [by apply Hstep|done].
Qed.

Lemma request_kinds (r : Request) :
  writes_to (request_player r) r \/ exists pid, r = ResetPlayerData pid.
Proof. destruct r; simpl; eauto. Qed.

Lemma handle_unique (c : Collection.t) (r : Request) :
  one_document_per_player c -> one_document_per_player (handle c r).
Proof.
  intros Hc. destruct (request_kinds r) as [Hw|[pid ->]].
  - destruct (handle_write _ c r Hw) as [(_ & doc & Hdoc & _ & ->)|[_ ->]]; [|done].
    by apply upsert_unique.
  - simpl. rewrite reset_player_data_collection. by apply delete_one_unique.
Qed.

(** Every reachable collection holds at most one document per player. *)
Lemma run_unique (history : list Request) : one_document_per_player (run history).
Proof.
  apply (fold_handle_invariant one_document_per_player (fun _ => True)).
  - intros c r Hc _. by apply handle_unique.
  - apply NoDup_nil_2.
  - by apply Forall_true.
Qed.

(** A request naming one player leaves the documents of the others. *)
Lemma handle_others (c : Collection.t) (r : Request) (pid : string) :
  request_player r <> pid -> stored pid (handle c r) = stored pid c.
Proof.
  intros Hne. destruct (request_kinds r) as [Hw|[pid' ->]].
  - destruct (handle_write _ c r Hw) as [(_ & doc & Hdoc & _ & ->)|[_ ->]]; [|done].
    by apply upsert_others.
  - simpl in *. rewrite reset_player_data_collection. by apply delete_one_others.
Qed.

(** A request that does not write for a player leaves the player without
    a document if there was none. *)
Lemma handle_not_written (pid : string) (c : Collection.t) (r : Request) :
  stored pid c = None -> ~ writes_to pid r -> stored pid (handle c r) = None.
Proof.
  intros Hnone Hr. destruct r as [now g|now s|pid']; simpl in Hr.
  - by rewrite handle_others.
  - by rewrite handle_others.
  - simpl. rewrite reset_player_data_collection. apply find_one_None.
    intros d Hd%delete_one_elem_of. revert d Hd. by apply find_one_None.
Qed.

Lemma run_not_written (pid : string) (history : list Request) :
  Forall (fun r => ~ writes_to pid r) history -> stored pid (run history) = None.
Proof.
  apply (fold_handle_invariant (fun c => stored pid c = None)); [|done].
  intros c r. apply handle_not_written.
Qed.

(** ** Accepted and refused writes *)

Lemma save_game_data_stored (now : datetime) (g : GameData.t) (c : Collection.t) :
  storable g ->
  stored (GameData.player_id g) (snd (save_game_data now g c)) =
    Some (kept (with_last_played now g)).
Proof.
  intros Hg. rewrite save_game_data_eq. cbv zeta. rewrite decide_True by done.
  simpl. by apply stored_upsert.
Qed.

Lemma save_game_data_refused (now : datetime) (g : GameData.t) (c : Collection.t) :
  ~ storable g ->
  save_game_data now g c =
    (HTTPException 500 "Error saving game data: " Collection.OverflowError, c).
Proof. intros Hg. rewrite save_game_data_eq. cbv zeta. by rewrite decide_False. Qed.

Lemma record_game_session_stored (now : datetime) (s : GameSession.t) (c : Collection.t) :
  let pid := GameSession.player_id s in
  storable (merged_record now s (stored pid c)) ->
  stored pid (snd (record_game_session now s c)) =
    Some (kept (merged_record now s (stored pid c))).
Proof.
  intros pid Hs. rewrite record_game_session_eq. cbv zeta.
  rewrite decide_True by done. simpl.
  apply stored_upsert, merged_record_player_id.
Qed.

Lemma record_game_session_refused (now : datetime) (s : GameSession.t) (c : Collection.t) :
  ~ storable (merged_record now s (stored (GameSession.player_id s) c)) ->
  record_game_session now s c =
    (HTTPException 500 "Error recording game session: " Collection.OverflowError, c).
Proof. intros Hs. rewrite record_game_session_eq. cbv zeta. by rewrite decide_False. Qed.

(** ** The player progress store *)

(** C4.  A player identifier with no stored document gets exactly the
    default record from [get_game_data]: current_level 1, max_level 1,
    total_score 0, items_collected 0, games_played 0, last_played null,
    under the queried player_id.  A player for whom no request of the
    history wrote has no stored document. *)
Theorem get_game_data_default (pid : string) :
  (forall c, stored pid c = None ->
     get_game_data pid c =
       {| GameData.player_id := pid; GameData.current_level := 1;
          GameData.max_level := 1; GameData.total_score := 0;
          GameData.items_collected := 0; GameData.games_played := 0;
          GameData.last_played := None |}) /\
  (forall history, Forall (fun r => ~ writes_to pid r) history ->
     stored pid (run history) = None /\
     get_game_data pid (run history) = default_record pid).
Proof.
  assert (forall c, stored pid c = None -> get_game_data pid c = default_record pid)
    as Hdefault.
  { intros c Hnone. unfold get_game_data. by rewrite Hnone. }
  split; [exact Hdefault|].
  intros history Hnone%run_not_written. split; [done|by apply Hdefault].
Qed.

Lemma get_game_data_default_witness :
  get_game_data "dave" [alice; bob] = GameData.mk "dave" 1 1 0 0 0 None /\
  get_game_data "dave" (run [SaveGameData 1 alice; ResetPlayerData "dave"]) =
    default_record "dave".
Proof.
  split.
  - apply (proj1 (get_game_data_default "dave") [alice; bob]). reflexivity.
  - apply (proj2 (get_game_data_default "dave")
             [SaveGameData 1 alice; ResetPlayerData "dave"]).
    repeat constructor; simpl; [discriminate|tauto].
Defined.

(** C5, as stated, fails for a record the store cannot encode: a save that
    carries total_score 2^63 is answered with status 500 and writes
    nothing, so the following [get_game_data] returns the default record,
    with total_score 0. *)
Lemma save_game_data_overflow :
  status_code (fst (save_game_data 1000 (GameData.mk "big" 1 1 (2 ^ 63) 0 0 None) [])) = 500 /\
  snd (save_game_data 1000 (GameData.mk "big" 1 1 (2 ^ 63) 0 0 None) []) = [] /\
  get_game_data "big"
    (snd (save_game_data 1000 (GameData.mk "big" 1 1 (2 ^ 63) 0 0 None) [])) =
    default_record "big" /\
  GameData.total_score
    (get_game_data "big"
       (snd (save_game_data 1000 (GameData.mk "big" 1 1 (2 ^ 63) 0 0 None) []))) <>
    GameData.total_score (GameData.mk "big" 1 1 (2 ^ 63) 0 0 None).
Proof. repeat split; by vm_compute. Qed.

(** C5, amended.  When the five counters of the record fit in signed
    64-bit integers, [save_game_data] answers with success and a following
    [get_game_data] on the same player returns the saved current_level,
    max_level, total_score, items_collected and games_played, with
    last_played the instant of the save to the millisecond, whatever
    last_played the caller sent and whatever the collection held before:
    the player's document is the one saved.  Otherwise the save is
    answered with status 500 and the collection is as before. *)
Theorem save_then_get (now : datetime) (g : GameData.t) (c : Collection.t) :
  let c' := snd (save_game_data now g c) in
  (storable g ->
   get_game_data (GameData.player_id g) c' =
     {| GameData.player_id := GameData.player_id g;
        GameData.current_level := GameData.current_level g;
        GameData.max_level := GameData.max_level g;
        GameData.total_score := GameData.total_score g;
        GameData.items_collected := GameData.items_collected g;
        GameData.games_played := GameData.games_played g;
        GameData.last_played := Some (Collection.to_millis now) |} /\
   stored (GameData.player_id g) c' = Some (get_game_data (GameData.player_id g) c') /\
   length c' = match stored (GameData.player_id g) c with
               | Some _ => length c
               | None => S (length c)
               end /\
   exists body, fst (save_game_data now g c) = OK body /\
                SaveResponse.success body = true) /\
  (~ storable g ->
   status_code (fst (save_game_data now g c)) = 500 /\ c' = c).
Proof.
  intros c'. subst c'. split; intros Hg.
  - pose proof (save_game_data_stored now g c Hg) as Hst.
    unfold get_game_data. rewrite Hst. repeat split.
    + rewrite save_game_data_eq. cbv zeta. rewrite decide_True by done. simpl.
      destruct (upsert_cases (GameData.player_id g) (kept (with_last_played now g)) c)
        as [(old & l1 & l2 & -> & _ & -> & ->)|[-> ->]].
      * by rewrite !length_app.
      * rewrite length_app. simpl. lia.
    + rewrite save_game_data_eq. cbv zeta. rewrite decide_True by done.
      by eexists.
  - by rewrite save_game_data_refused.
Qed.

Lemma save_then_get_witness :
  get_game_data "bob"
    (snd (save_game_data 1234567 (GameData.mk "bob" 3 3 150 25 5 None) [alice; bob; carol])) =
    GameData.mk "bob" 3 3 150 25 5 (Some 1234000) /\
  length (snd (save_game_data 1234567 (GameData.mk "bob" 3 3 150 25 5 None)
                 [alice; bob; carol])) = 3%nat.
Proof.
  destruct (save_then_get 1234567 (GameData.mk "bob" 3 3 150 25 5 None)
              [alice; bob; carol]) as [Hok _].
  destruct Hok as (Hget & _ & Hlen & _).
  - unfold storable, in_int64. simpl. lia.
  - split; [exact Hget|exact Hlen].
Defined.

(** C7.  [reset_player_data] always succeeds.  When the player has a
    document it reports deleted_count 1 and removes that document; with one
    document per player, as in every reachable collection, the player then
    has none and [get_game_data] returns the default record.  When the
    player has no document it reports deleted_count 0, changes nothing, and
    [get_game_data] returns the default record.  The documents of the other
    players are not touched. *)
Theorem reset_player_data_deletes (pid : string) (c : Collection.t) :
  let resp := fst (reset_player_data pid c) in
  let c' := snd (reset_player_data pid c) in
  ResetResponse.success resp = true /\
  match stored pid c with
  | Some d =>
      ResetResponse.deleted_count resp = 1 /\
      (exists l1 l2, c = l1 ++ d :: l2 /\ c' = l1 ++ l2) /\
      length c = S (length c') /\
      (one_document_per_player c ->
       stored pid c' = None /\ get_game_data pid c' = default_record pid)
  | None =>
      ResetResponse.deleted_count resp = 0 /\ c' = c /\
      stored pid c' = None /\ get_game_data pid c' = default_record pid
  end /\
  (forall pid', pid' <> pid -> stored pid' c' = stored pid' c).
Proof.
  intros resp c'. subst resp c'.
  pose proof (delete_one_gone pid c) as Hgone.
  pose proof (fun pid' => delete_one_others pid pid' c) as Hothers.
  rewrite reset_player_data_collection. unfold reset_player_data.
  destruct (delete_one_cases pid c)
    as [(d & l1 & l2 & Hd & _ & Hc & Hdel)|[Hnone Hdel]];
    rewrite Hdel in *; simpl in *.
  - rewrite Hd. repeat split; try done.
    + by exists l1, l2.
    + rewrite Hc, !length_app. simpl. lia.
    + by apply Hgone.
    + unfold get_game_data. by rewrite Hgone.
  - rewrite Hnone. repeat split; try done.
    unfold get_game_data. by rewrite Hnone.
Qed.

Lemma reset_player_data_deletes_witness :
  stored "bob" (snd (reset_player_data "bob" [alice; bob; carol])) = None /\
  get_game_data "bob" (snd (reset_player_data "bob" [alice; bob; carol])) =
    default_record "bob".
Proof.
  pose proof (reset_player_data_deletes "bob" [alice; bob; carol]) as H.
  simpl in H. destruct H as (_ & (_ & _ & _ & H) & _).
  apply H. unfold one_document_per_player. apply (bool_decide_unpack _). by vm_compute.
Defined.

(** ** The session recorder *)

(** C1, as stated, fails when a running total leaves the signed 64-bit
    range of the store: for a player whose stored total_score is 2^63 - 1,
    a session with score 1 is answered with status 500 and the stored
    document keeps its total_score and its games_played. *)
Lemma record_game_session_overflow :
  exists prior after,
    stored "max" [GameData.mk "max" 1 1 (2 ^ 63 - 1) 0 1 (Some 0)] = Some prior /\
    stored "max"
      (snd (record_game_session 1000 (GameSession.mk "max" 1 1 0 false None)
              [GameData.mk "max" 1 1 (2 ^ 63 - 1) 0 1 (Some 0)])) = Some after /\
    status_code
      (fst (record_game_session 1000 (GameSession.mk "max" 1 1 0 false None)
              [GameData.mk "max" 1 1 (2 ^ 63 - 1) 0 1 (Some 0)])) = 500 /\
    GameData.total_score after <> GameData.total_score prior + 1 /\
    GameData.games_played after <> GameData.games_played prior + 1.
Proof. eexists _, _. repeat split; by vm_compute. Qed.

(** C1, amended.  The record [r] that [record_game_session] builds.  With
    no prior document: current_level and max_level are the reported level
    when completed and 1 otherwise, total_score and items_collected are the
    session's deltas, games_played is 1.  With a prior document:
    current_level is the reported level when completed and the prior one
    otherwise, max_level is the larger of the reported level and the prior
    max_level when completed and the prior one otherwise, total_score and
    items_collected are the prior values plus the deltas, games_played is
    the prior value plus 1 in both cases.  When the five counters of [r]
    fit in signed 64-bit integers the response carries [r] and the player's
    stored document is [r] with last_played to the millisecond; otherwise
    the request is answered with status 500 and the collection is as
    before. *)
Theorem record_game_session_merge (now : datetime) (s : GameSession.t) (c : Collection.t) :
  let pid := GameSession.player_id s in
  let completed := GameSession.completed s in
  exists r,
    GameData.player_id r = pid /\
    GameData.last_played r = Some now /\
    match stored pid c with
    | None =>
        GameData.current_level r = (if completed then GameSession.level s else 1) /\
        GameData.max_level r = (if completed then GameSession.level s else 1) /\
        GameData.total_score r = GameSession.score s /\
        GameData.items_collected r = GameSession.items_collected s /\
        GameData.games_played r = 1
    | Some prior =>
        GameData.current_level r =
          (if completed then GameSession.level s else GameData.current_level prior) /\
        GameData.max_level r =
          (if completed then Z.max (GameSession.level s) (GameData.max_level prior)
           else GameData.max_level prior) /\
        GameData.total_score r = GameData.total_score prior + GameSession.score s /\
        GameData.items_collected r =
          GameData.items_collected prior + GameSession.items_collected s /\
        GameData.games_played r = GameData.games_played prior + 1
    end /\
    (storable r ->
     fst (record_game_session now s c) =
       OK {| SessionResponse.success := true;
             SessionResponse.message := "Game session recorded successfully";
             SessionResponse.updated_data := r |} /\
     stored pid (snd (record_game_session now s c)) =
       Some {| GameData.player_id := pid;
               GameData.current_level := GameData.current_level r;
               GameData.max_level := GameData.max_level r;
               GameData.total_score := GameData.total_score r;
               GameData.items_collected := GameData.items_collected r;
               GameData.games_played := GameData.games_played r;
               GameData.last_played := Some (Collection.to_millis now) |}) /\
    (~ storable r ->
     status_code (fst (record_game_session now s c)) = 500 /\
     snd (record_game_session now s c) = c).
Proof.
  intros pid completed. subst pid completed.
  exists (merged_record now s (stored (GameSession.player_id s) c)).
  split; [apply merged_record_player_id|].
  split; [by destruct (stored _ c)|].
  split; [by destruct (stored _ c)|].
  split; intros Hr.
  - split.
    + rewrite record_game_session_eq. cbv zeta. by rewrite decide_True.
    + rewrite record_game_session_stored by done.
      unfold kept. rewrite merged_record_player_id. by destruct (stored _ c).
  - by rewrite record_game_session_refused.
Qed.

Lemma record_game_session_merge_witness :
  exists r,
    GameData.max_level r = 5 /\ GameData.total_score r = 130 /\
    GameData.games_played r = 3 /\
    stored "bob"
      (snd (record_game_session 1234567 (GameSession.mk "bob" 4 40 2 true None)
              [alice; bob; carol])) =
      Some (GameData.mk "bob" (GameData.current_level r) 5 130
              (GameData.items_collected r) 3 (Some 1234000)).
Proof.
  destruct (record_game_session_merge 1234567 (GameSession.mk "bob" 4 40 2 true None)
              [alice; bob; carol]) as (r & _ & _ & Hfields & Hok & _).
  simpl in Hfields. destruct Hfields as (Hcur & Hmax & Hscore & Hitems & Hgames).
  exists r. repeat split; [exact Hmax|exact Hscore|exact Hgames|].
  destruct Hok as [_ Hst].
  - unfold storable, in_int64. rewrite Hcur, Hmax, Hscore, Hitems, Hgames.
    simpl. lia.
  - etransitivity; [exact Hst|]. rewrite Hmax, Hscore, Hgames. reflexivity.
Defined.

(** C8, as stated, fails for [save_game_data]: a save writes the max_level
    it is given.  Bob's stored max_level is 5; after a save carrying
    max_level 2 it is 2. *)
Lemma save_game_data_lowers_max_level :
  let c := [alice; bob; carol] in
  let g := GameData.mk "bob" 2 2 90 7 3 None in
  exists before after,
    stored "bob" c = Some before /\
    stored "bob" (snd (save_game_data 99 g c)) = Some after /\
    GameData.max_level before = 5 /\ GameData.max_level after = 2 /\
    ~ (GameData.max_level before <= GameData.max_level after).
Proof. eexists _, _. repeat split; try reflexivity. simpl. lia. Qed.

(** C8, amended.  For a player with a stored document,
    [record_game_session] leaves a document whose max_level is at least
    the one before.  [save_game_data] with a record whose five counters
    fit in signed 64-bit integers leaves a document whose max_level is the
    one the caller sent, so it is at least the one before exactly when the
    caller's value is; with any other record it leaves the document that
    was there. *)
Theorem max_level_across_writes (now : datetime) (c : Collection.t) (pid : string)
    (prior : Document) :
  stored pid c = Some prior ->
  (forall s, GameSession.player_id s = pid ->
     exists d', stored pid (snd (record_game_session now s c)) = Some d' /\
                GameData.max_level prior <= GameData.max_level d') /\
  (forall g, GameData.player_id g = pid ->
     exists d', stored pid (snd (save_game_data now g c)) = Some d' /\
                (storable g ->
                 GameData.max_level d' = GameData.max_level g /\
                 (GameData.max_level prior <= GameData.max_level d' <->
                  GameData.max_level prior <= GameData.max_level g)) /\
                (~ storable g -> d' = prior)).
Proof.
  intros Hprior. split.
  - intros s <-.
    destruct (decide (storable (merged_record now s
                                  (stored (GameSession.player_id s) c)))) as [Hs|Hs].
    + eexists. split; [by apply record_game_session_stored|].
      rewrite Hprior. simpl. destruct (GameSession.completed s); lia.
    + rewrite record_game_session_refused by done. exists prior. split; [done|lia].
  - intros g <-. destruct (decide (storable g)) as [Hg|Hg].
    + eexists. split; [by apply save_game_data_stored|]. by split.
    + rewrite save_game_data_refused by done. exists prior. by split.
Qed.

Lemma max_level_across_writes_witness :
  (forall s, GameSession.player_id s = "bob" ->
     exists d', stored "bob" (snd (record_game_session 99 s [alice; bob; carol])) = Some d' /\
                GameData.max_level bob <= GameData.max_level d') /\
  (forall g, GameData.player_id g = "bob" ->
     exists d', stored "bob" (snd (save_game_data 99 g [alice; bob; carol])) = Some d' /\
                (storable g ->
                 GameData.max_level d' = GameData.max_level g /\
                 (GameData.max_level bob <= GameData.max_level d' <->
                  GameData.max_level bob <= GameData.max_level g)) /\
                (~ storable g -> d' = bob)).
Proof. apply (max_level_across_writes 99 [alice; bob; carol] "bob" bob). reflexivity. Defined.

(** C9, as stated, fails: nothing checks the numbers of a request.  One
    completed session reporting level 0 and negative deltas, applied to the
    empty collection, stores a document with current_level 0, max_level 0
    and negative total_score and items_collected. *)
Lemma negative_totals_reachable :
  run [RecordGameSession 7000 (GameSession.mk "eve" 0 (-10) (-3) true None)] =
    [GameData.mk "eve" 0 0 (-10) (-3) 1 (Some 7000)] /\
  ~ within_constraints (GameData.mk "eve" 0 0 (-10) (-3) 1 (Some 7000)) /\
  GameData.total_score (GameData.mk "eve" 0 0 (-10) (-3) 1 (Some 7000)) < 0.
Proof.
  split; [reflexivity|]. split; [|simpl; lia].
  unfold within_constraints. simpl. lia.
Qed.

Lemma handle_within_constraints (c : Collection.t) (r : Request) :
  Forall within_constraints c -> respects_constraints r ->
  Forall within_constraints (handle c r).
Proof.
  rewrite !Forall_forall. intros Hc Hr d.
  destruct r as [now g|now s|pid]; simpl.
  - rewrite save_game_data_eq. cbv zeta.
    destruct (decide (storable g)); simpl; [|by apply Hc].
    intros [->|Hd]%upsert_elem_of; [exact Hr|by apply Hc].
  - rewrite record_game_session_eq. cbv zeta.
    destruct (decide (storable _)); simpl; [|by apply Hc].
    intros [->|Hd]%upsert_elem_of; [|by apply Hc].
    destruct Hr as (Hlevel & Hscore & Hitems).
    destruct (stored (GameSession.player_id s) c) as [prior|] eqn:Hprior.
    + apply find_one_Some in Hprior as [Hin _]. apply Hc in Hin.
      unfold within_constraints in *. simpl.
      destruct (GameSession.completed s); [specialize (Hlevel eq_refl)|]; lia.
    + unfold within_constraints. simpl.
      destruct (GameSession.completed s); [specialize (Hlevel eq_refl)|]; lia.
  - rewrite reset_player_data_collection.
    intros Hd%delete_one_elem_of. by apply Hc.
Qed.

(** C9, amended.  When every save carries a record within the field
    constraints and every session has non-negative score and items deltas
    and, if completed, a level of at least 1, every document of the
    resulting collection satisfies current_level >= 1, max_level >= 1,
    total_score >= 0, items_collected >= 0 and games_played >= 0. *)
Theorem run_within_constraints (history : list Request) :
  Forall respects_constraints history ->
  Forall within_constraints (run history).
Proof.
  intros Hall.
  apply (fold_handle_invariant (Forall within_constraints) respects_constraints);
    [apply handle_within_constraints|constructor|done].
Qed.

Lemma run_within_constraints_witness : Forall within_constraints (run test_history).
Proof.
  apply run_within_constraints.
  repeat constructor; unfold within_constraints; simpl; lia.
Defined.

(** ** The leaderboard *)

Lemma precedes_leaderboard_sort (d1 d2 : Document) :
  Collection.precedes leaderboard_sort d1 d2 <-> listed_before (doc_key d1) (doc_key d2).
Proof.
  unfold Collection.precedes, leaderboard_sort, listed_before, doc_key. simpl.
  destruct (Z.compare_spec (GameData.max_level d1) (GameData.max_level d2)),
           (Z.compare_spec (GameData.total_score d1) (GameData.total_score d2));
    simpl; split; intros; try done; try lia.
Qed.

Lemma format_entry_of (i : nat) (d : Document) : entry_of (format_entry i d) d.
Proof. by repeat split. Qed.

(** The limit of 0 lists every player. *)
Lemma get_leaderboard_unlimited (first_batch : nat) (c : Collection.t) :
  length (LeaderboardResponse.leaderboard (get_leaderboard first_batch 0 c)) = length c.
Proof.
  unfold get_leaderboard, Collection.limit. simpl.
  by rewrite length_imap, (sort_permutation leaderboard_sort c).
Qed.




(** ** The rank of one player *)

Lemma better_players_query_spec (p d : Document) :
  Collection.matches (better_players_query p) d <-> strictly_better p d.
Proof.
  unfold better_players_query, strictly_better. simpl.
  rewrite !orb_false_r, !andb_true_r.
  rewrite orb_True, andb_True, !Is_true_true, Z.ltb_lt, Z.eqb_eq, Z.ltb_lt.
  done.
Qed.

Lemma count_better_players (p : Document) (c : Collection.t) :
  Collection.count_documents (better_players_query p) c =
    Z.of_nat (length (filter (strictly_better p) c)).
Proof.
  unfold Collection.count_documents. do 2 f_equal.
  apply list_filter_iff. intros d. apply better_players_query_spec.
Qed.

Lemma strictly_better_irrefl (p : Document) : ~ strictly_better p p.
Proof. unfold strictly_better. lia. Qed.

(** C2.  For a player with a stored document, [get_player_rank] returns 1
    plus the number of stored documents that are strictly better (higher
    max_level, or equal max_level and higher total_score); for a player
    with none it returns the not-found result, which carries no rank.  Two
    stored players with the same max_level and total_score get the same
    rank. *)
Theorem get_player_rank_competition (c : Collection.t) :
  (forall pid,
     match stored pid c with
     | Some p =>
         RankResponse.rank (get_player_rank pid c) =
           Some (1 + Z.of_nat (length (filter (strictly_better p) c)))
     | None =>
         get_player_rank pid c = RankResponse.NotFound "Player not found" /\
         RankResponse.rank (get_player_rank pid c) = None
     end) /\
  (forall pid1 pid2 p1 p2,
     stored pid1 c = Some p1 -> stored pid2 c = Some p2 ->
     GameData.max_level p1 = GameData.max_level p2 ->
     GameData.total_score p1 = GameData.total_score p2 ->
     RankResponse.rank (get_player_rank pid1 c) =
       RankResponse.rank (get_player_rank pid2 c)).
Proof.
  assert (forall pid p, stored pid c = Some p ->
            RankResponse.rank (get_player_rank pid c) =
              Some (1 + Z.of_nat (length (filter (strictly_better p) c)))) as Hrank.
  { intros pid p Hp. unfold get_player_rank. rewrite Hp. simpl.
    rewrite count_better_players. f_equal. lia. }
  split.
  - intros pid. destruct (stored pid c) as [p|] eqn:Hp; [by apply Hrank|].
    unfold get_player_rank. by rewrite Hp.
  - intros pid1 pid2 p1 p2 H1 H2 Hlevel Hscore.
    rewrite (Hrank _ _ H1), (Hrank _ _ H2). do 4 f_equal.
    apply list_filter_iff. intros d. unfold strictly_better.
    by rewrite Hlevel, Hscore.
Qed.

Lemma get_player_rank_competition_witness :
  RankResponse.rank (get_player_rank "alice" [alice; bob; carol]) =
    RankResponse.rank (get_player_rank "carol" [alice; bob; carol]).
Proof.
  apply (proj2 (get_player_rank_competition [alice; bob; carol])
           "alice" "carol" alice carol); reflexivity.
Defined.

(** C10.  The rank of a stored player lies between 1 and the number of
    stored documents, which is the total_players of the response: the
    query that counts the better players never matches the player's own
    document. *)
Theorem get_player_rank_bounds (pid : string) (c : Collection.t) (p : Document) :
  stored pid c = Some p ->
  Collection.matches (better_players_query p) p = false /\
  exists k n pd,
    get_player_rank pid c = RankResponse.Ranked k n pd /\
    n = Z.of_nat (length c) /\ 1 <= k <= n.
Proof.
  intros Hp. split.
  { apply not_true_iff_false. intros Hself%Is_true_true%better_players_query_spec.
    by apply strictly_better_irrefl in Hself. }
  unfold get_player_rank. rewrite Hp. eexists _, _, _. split; [done|].
  rewrite count_better_players, count_everything.
  apply find_one_Some in Hp as [Hin _].
  pose proof (length_filter_lt (strictly_better p) c p Hin (strictly_better_irrefl p)).
  split; [done|lia].
Qed.

Lemma get_player_rank_bounds_witness :
  Collection.matches (better_players_query carol) carol = false /\
  exists k n pd,
    get_player_rank "carol" [alice; bob; carol] = RankResponse.Ranked k n pd /\
    n = Z.of_nat (length [alice; bob; carol]) /\ 1 <= k <= n.
Proof. apply (get_player_rank_bounds "carol" [alice; bob; carol] carol). reflexivity. Defined.

(** ** Aggregate statistics *)

Lemma stats_pipeline_result (d : Document) (ds : list Document) :
  exists stats,
    Collection.aggregate_group stats_pipeline (d :: ds) = [stats] /\
    dict_get stats "total_score" 0 = sum_of GameData.total_score (d :: ds) /\
    dict_get stats "total_items_collected" 0 = sum_of GameData.items_collected (d :: ds) /\
    dict_get stats "total_games_played" 0 = sum_of GameData.games_played (d :: ds) /\
    is_maximum_of GameData.max_level (d :: ds) (dict_get stats "max_level_reached" 1).
Proof.
  eexists. split; [reflexivity|].
  pose proof (accumulate_Sum Collection.total_score d ds) as Hscore.
  pose proof (accumulate_Sum Collection.items_collected d ds) as Hitems.
  pose proof (accumulate_Sum Collection.games_played d ds) as Hgames.
  pose proof (accumulate_Max Collection.max_level d ds) as Hmax.
  split; [|split; [|split]].
  - etransitivity; [|exact Hscore]. by vm_compute.
  - etransitivity; [|exact Hitems]. by vm_compute.
  - etransitivity; [|exact Hgames]. by vm_compute.
  - replace (dict_get _ "max_level_reached" 1)
      with (Collection.accumulate (Collection.Max Collection.max_level) d ds)
      by (by vm_compute).
    exact Hmax.
Qed.




(** * Further properties of the handlers *)

(** ** More facts about the collection *)

Section more_collection_facts.
Implicit Types (c l : Collection.t) (d doc : Document) (q : Filter) (pid : string).

Lemma set_first_middle q doc l1 d l2 :
  Collection.find_one q l1 = None -> Collection.matches q d = true ->
  Collection.set_first q doc (l1 ++ d :: l2) = Some (d, l1 ++ doc :: l2).
Proof.
  intros Hl1 Hd. induction l1 as [|x l1 IH]; simpl.
  - by rewrite Hd.
  - rewrite find_one_cons in Hl1.
    destruct (Collection.matches q x); [done|]. by rewrite IH.
Qed.

Lemma upsert_middle pid doc l1 d l2 :
  stored pid l1 = None -> GameData.player_id d = pid ->
  snd (Collection.upsert (Collection.PlayerId pid) doc (l1 ++ d :: l2)) =
    l1 ++ doc :: l2.
Proof.
  intros Hl1 Hd%matches_PlayerId. unfold Collection.upsert.
  by rewrite (set_first_middle _ doc l1 d l2 Hl1 Hd).
Qed.

Lemma delete_one_middle pid l1 d l2 :
  stored pid l1 = None -> GameData.player_id d = pid ->
  Collection.delete_one (Collection.PlayerId pid) (l1 ++ d :: l2) =
    ({| Collection.deleted_count := 1 |}, l1 ++ l2).
Proof.
  intros Hl1 Hd%matches_PlayerId. induction l1 as [|x l1 IH]; simpl.
  - simpl in Hd. by rewrite Hd.
  - rewrite find_one_cons in Hl1. simpl in Hl1.
    destruct (bool_decide (GameData.player_id x = pid)); [done|].
    by rewrite IH.
Qed.

Lemma stored_None_app pid l1 l2 :
  stored pid (l1 ++ l2) = None <-> stored pid l1 = None /\ stored pid l2 = None.
Proof.
  rewrite find_one_app. destruct (stored pid l1); [|tauto].
  split; [done|]. by intros [? _].
Qed.
End more_collection_facts.

Lemma upsert_absent (pid : string) (doc : Document) (c : Collection.t) :
  stored pid c = None ->
  snd (Collection.upsert (Collection.PlayerId pid) doc c) = c ++ [doc].
Proof.
  intros Hnone.
  destruct (upsert_cases pid doc c) as [(old & l1 & l2 & Hold & _)|[_ ->]]; [|done].
  congruence.
Qed.

Lemma upsert_twice (pid : string) (d1 d2 : Document) (c : Collection.t) :
  GameData.player_id d1 = pid ->
  snd (Collection.upsert (Collection.PlayerId pid) d2
         (snd (Collection.upsert (Collection.PlayerId pid) d1 c))) =
    snd (Collection.upsert (Collection.PlayerId pid) d2 c).
Proof.
  intros Hd1.
  destruct (upsert_cases pid d1 c)
    as [(old & l1 & l2 & Hold & Hl1 & Hc & ->)|[Hnone ->]].
  - apply stored_player_id in Hold. rewrite Hc.
    by rewrite !upsert_middle by done.
  - by rewrite upsert_middle, upsert_absent by done.
Qed.

Lemma NoDup_fmap_elem_inj {A B} (f : A -> B) (l : list A) (x y : A) :
  NoDup (f <$> l) -> x ∈ l -> y ∈ l -> f x = f y -> x = y.
Proof.
  induction l as [|a l IH]; [by intros _ ?%elem_of_nil|].
  rewrite fmap_cons, NoDup_cons.
  intros [Ha Hl] [->|Hx]%elem_of_cons [->|Hy]%elem_of_cons Heq; [done| | |by apply IH].
  - destruct Ha. rewrite Heq. by apply list_elem_of_fmap_2.
  - destruct Ha. rewrite <- Heq. by apply list_elem_of_fmap_2.
Qed.

(** ** Each handler touches one player *)

(** X1.  A save, a session or a reset naming one player leaves the stored
    document of every other player, and what [get_game_data] returns for
    them, as it was. *)
Theorem writes_leave_others (c : Collection.t) (r : Request) (pid : string) :
  request_player r <> pid ->
  stored pid (handle c r) = stored pid c /\
  get_game_data pid (handle c r) = get_game_data pid c.
Proof.
  intros Hne. pose proof (handle_others c r pid Hne) as Hst.
  split; [done|]. unfold get_game_data. by rewrite Hst.
Qed.

Lemma writes_leave_others_witness :
  stored "alice" (handle [alice; bob; carol]
                    (RecordGameSession 20000 (GameSession.mk "bob" 9 40 2 true None))) =
    stored "alice" [alice; bob; carol] /\
  get_game_data "alice" (handle [alice; bob; carol]
                    (RecordGameSession 20000 (GameSession.mk "bob" 9 40 2 true None))) =
    get_game_data "alice" [alice; bob; carol].
Proof.
  apply (writes_leave_others [alice; bob; carol]
           (RecordGameSession 20000 (GameSession.mk "bob" 9 40 2 true None)) "alice").
  simpl. discriminate.
Defined.

Lemma filter_player_unique (pid : string) (c : Collection.t) :
  one_document_per_player c ->
  (length (filter (fun d => GameData.player_id d = pid) c) <= 1)%nat.
Proof.
  unfold one_document_per_player. induction c as [|d c IH]; [simpl; lia|].
  rewrite fmap_cons, NoDup_cons. intros [Hd Hc].
  rewrite filter_cons. destruct (decide (GameData.player_id d = pid)) as [<-|Hne];
    [|by apply IH].
  destruct (filter _ c) as [|d' rest] eqn:Hf; [simpl; lia|].
  assert (d' ∈ filter (fun d0 => GameData.player_id d0 = GameData.player_id d) c)
    as [Heq Hin]%list_elem_of_filter by (rewrite Hf; left).
  destruct Hd. rewrite <- Heq. by apply list_elem_of_fmap_2.
Qed.

Lemma stored_unique (c : Collection.t) (d : Document) :
  one_document_per_player c -> d ∈ c -> stored (GameData.player_id d) c = Some d.
Proof.
  intros Hunique Hd.
  destruct (stored (GameData.player_id d) c) as [d'|] eqn:Hst.
  - pose proof (stored_player_id _ _ _ Hst) as Hid.
    apply find_one_Some in Hst as [Hd' _].
    f_equal. by apply (NoDup_fmap_elem_inj GameData.player_id c).
  - rewrite find_one_None in Hst. specialize (Hst d Hd).
    by apply not_matches_PlayerId in Hst.
Qed.

(** X2.  In every collection that a history of requests produces, a player
    identifier names at most one document, and every document is the one
    the lookup by its player identifier finds: no document is shadowed by
    another. *)
Theorem at_most_one_document (history : list Request) :
  (forall pid,
     (length (filter (fun d => GameData.player_id d = pid) (run history)) <= 1)%nat) /\
  (forall d, d ∈ run history ->
     stored (GameData.player_id d) (run history) = Some d /\
     get_game_data (GameData.player_id d) (run history) = d).
Proof.
  pose proof (run_unique history) as Hunique. split.
  - intros pid. by apply filter_player_unique.
  - intros d Hd. pose proof (stored_unique _ _ Hunique Hd) as Hst.
    split; [done|]. unfold get_game_data. by rewrite Hst.
Qed.

Lemma at_most_one_document_witness :
  stored (GameData.player_id (GameData.mk "jovinho_player_1" 5 5 375 60 8 (Some 4000)))
    (run test_history) = Some (GameData.mk "jovinho_player_1" 5 5 375 60 8 (Some 4000)) /\
  get_game_data (GameData.player_id (GameData.mk "jovinho_player_1" 5 5 375 60 8 (Some 4000)))
    (run test_history) = GameData.mk "jovinho_player_1" 5 5 375 60 8 (Some 4000).
Proof.
  apply (proj2 (at_most_one_document test_history)). by left.
Defined.

(** ** Writes compose *)

(** X3.  Last write wins: a save whose five counters fit in signed 64-bit
    integers, made after a save or a session of the same player, leaves
    the collection that the save alone would have left, and
    [get_game_data] then returns the saved record with last_played the
    instant of the save to the millisecond; nothing of the earlier write
    survives.  A save with any other record is refused and leaves what the
    earlier write left. *)
Theorem save_last_write_wins (now : datetime) (g : GameData.t) (r : Request)
    (c : Collection.t) :
  writes_to (GameData.player_id g) r ->
  (storable g ->
   snd (save_game_data now g (handle c r)) = snd (save_game_data now g c) /\
   get_game_data (GameData.player_id g) (snd (save_game_data now g (handle c r))) =
     {| GameData.player_id := GameData.player_id g;
        GameData.current_level := GameData.current_level g;
        GameData.max_level := GameData.max_level g;
        GameData.total_score := GameData.total_score g;
        GameData.items_collected := GameData.items_collected g;
        GameData.games_played := GameData.games_played g;
        GameData.last_played := Some (Collection.to_millis now) |}) /\
  (~ storable g ->
   status_code (fst (save_game_data now g (handle c r))) = 500 /\
   snd (save_game_data now g (handle c r)) = handle c r).
Proof.
  intros Hr. split; intros Hg.
  - split.
    + destruct (handle_write _ c r Hr) as [(_ & doc & Hdoc & _ & ->)|[_ ->]]; [|done].
      rewrite !save_game_data_eq. cbv zeta. rewrite !decide_True by done. simpl.
      by rewrite (upsert_twice _ doc).
    + unfold get_game_data. by rewrite save_game_data_stored.
  - by rewrite save_game_data_refused.
Qed.

Lemma save_last_write_wins_witness :
  snd (save_game_data 30000 bob
         (handle [alice; carol]
            (RecordGameSession 20000 (GameSession.mk "bob" 9 40 2 true None)))) =
    snd (save_game_data 30000 bob [alice; carol]) /\
  get_game_data "bob"
    (snd (save_game_data 30000 bob
            (handle [alice; carol]
               (RecordGameSession 20000 (GameSession.mk "bob" 9 40 2 true None))))) =
    GameData.mk "bob" 5 5 90 7 2 (Some 30000).
Proof.
  apply (proj1 (save_last_write_wins 30000 bob
                  (RecordGameSession 20000 (GameSession.mk "bob" 9 40 2 true None))
                  [alice; carol] eq_refl)).
  unfold storable, in_int64. simpl. lia.
Defined.

(** X4.  A reset made after a save or a session of the same player leaves
    the collection that the reset alone would have left; for a player who
    had no document, the write followed by the reset restores the
    collection exactly.  When the write was answered with status 200 the
    reset deletes one document; when it was refused the reset answers as
    it would have without the write. *)
Theorem reset_undoes_write (pid : string) (r : Request) (c : Collection.t) :
  writes_to pid r ->
  snd (reset_player_data pid (handle c r)) = snd (reset_player_data pid c) /\
  (stored pid c = None -> snd (reset_player_data pid (handle c r)) = c) /\
  (accepted c r ->
   ResetResponse.deleted_count (fst (reset_player_data pid (handle c r))) = 1) /\
  (~ accepted c r ->
   fst (reset_player_data pid (handle c r)) = fst (reset_player_data pid c)).
Proof.
  intros Hr.
  assert (stored pid c = None -> snd (reset_player_data pid c) = c) as Hnone.
  { intros Hnone. rewrite reset_player_data_collection.
    destruct (delete_one_cases pid c) as [(d0 & ? & ? & Hd0 & _)|[_ ->]]; [congruence|].
    done. }
  assert (forall c', ResetResponse.deleted_count (fst (reset_player_data pid c')) =
                     Collection.deleted_count
                       (fst (Collection.delete_one (Collection.PlayerId pid) c')))
    as Hcount.
  { intros c'. unfold reset_player_data. by destruct (Collection.delete_one _ c'). }
  destruct (handle_write _ c r Hr) as [(Hacc & doc & Hdoc & _ & Hc')|[Hacc ->]].
  - rewrite Hc'. clear Hc'.
    assert (snd (reset_player_data pid
                   (snd (Collection.upsert (Collection.PlayerId pid) doc c))) =
              snd (reset_player_data pid c) /\
            ResetResponse.deleted_count
              (fst (reset_player_data pid
                      (snd (Collection.upsert (Collection.PlayerId pid) doc c)))) = 1)
      as [Hsnd Hfst].
    { rewrite Hcount, !reset_player_data_collection.
      destruct (upsert_cases pid doc c)
        as [(old & l1 & l2 & Hold & Hl1 & Hc & ->)|[Hnone' ->]].
      - apply stored_player_id in Hold.
        by rewrite Hc, !delete_one_middle by done.
      - rewrite delete_one_middle by done. simpl. rewrite app_nil_r.
        rewrite <- reset_player_data_collection. by rewrite Hnone. }
    repeat split; [done| |done|done].
    intros Hc. by rewrite Hsnd, Hnone.
  - repeat split; [done|done].
Qed.

Lemma reset_undoes_write_witness :
  snd (reset_player_data "dave"
         (handle [alice; bob] (SaveGameData 5000 (GameData.mk "dave" 2 2 50 10 2 None)))) =
    [alice; bob] /\
  ResetResponse.deleted_count
    (fst (reset_player_data "dave"
            (handle [alice; bob]
               (SaveGameData 5000 (GameData.mk "dave" 2 2 50 10 2 None))))) = 1.
Proof.
  destruct (reset_undoes_write "dave"
              (SaveGameData 5000 (GameData.mk "dave" 2 2 50 10 2 None)) [alice; bob])
    as (_ & Hrestored & Hdeleted & _).
  - reflexivity.
  - split; [apply Hrestored; reflexivity|apply Hdeleted; reflexivity].
Defined.

(** ** Histories of sessions *)

Lemma accepted_session (now : datetime) (s : GameSession.t) (c : Collection.t) :
  accepted c (RecordGameSession now s) <->
  storable (merged_record now s (stored (GameSession.player_id s) c)).
Proof.
  unfold accepted. simpl. rewrite record_game_session_eq. cbv zeta.
  destruct (decide (storable _)); simpl; split; (done || lia).
Qed.

Lemma get_game_data_kept (pid : string) (c : Collection.t) (d : Document) :
  stored pid c = Some (kept d) ->
  GameData.current_level (get_game_data pid c) = GameData.current_level d /\
  GameData.max_level (get_game_data pid c) = GameData.max_level d /\
  GameData.total_score (get_game_data pid c) = GameData.total_score d /\
  GameData.items_collected (get_game_data pid c) = GameData.items_collected d /\
  GameData.games_played (get_game_data pid c) = GameData.games_played d.
Proof. intros Hst. unfold get_game_data. by rewrite Hst. Qed.

(** What one accepted session does to the record [get_game_data] shows. *)
Lemma record_game_session_step (now : datetime) (s : GameSession.t) (c : Collection.t) :
  let pid := GameSession.player_id s in
  let before := get_game_data pid c in
  let after := get_game_data pid (snd (record_game_session now s c)) in
  accepted c (RecordGameSession now s) ->
  GameData.total_score after = GameData.total_score before + GameSession.score s /\
  GameData.items_collected after =
    GameData.items_collected before + GameSession.items_collected s /\
  GameData.games_played after = GameData.games_played before + 1.
Proof.
  intros pid before after Hs%accepted_session. subst pid before after.
  destruct (get_game_data_kept _ _ _ (record_game_session_stored now s c Hs))
    as (_ & _ & -> & -> & ->).
  unfold get_game_data. by destruct (stored _ c).
Qed.

Lemma not_overwrites_cases (pid : string) (r : Request) :
  ~ overwrites pid r ->
  request_player r <> pid \/
  exists now s, r = RecordGameSession now s /\ GameSession.player_id s = pid.
Proof.
  destruct r as [now g|now s|pid']; simpl; intros Hr; [by left| |by left].
  destruct (decide (GameSession.player_id s = pid)); [right; eauto|by left].
Qed.

Lemma accepted_sessions_other (pid : string) (r : Request) (history : list Request)
    (c : Collection.t) :
  request_player r <> pid ->
  accepted_sessions pid (r :: history) c = accepted_sessions pid history (handle c r).
Proof.
  destruct r as [now g|now s|pid']; simpl; [done| |done].
  intros Hne. rewrite decide_False; [done|]. by intros [? _].
Qed.

(** X5.  Along a history in which no save and no reset names the player,
    the totals that [get_game_data] shows for the player grow by exactly
    the player's sessions that were answered with status 200: total_score
    by the sum of their scores, items_collected by the sum of their items,
    games_played by their number, completed or not, whatever the other
    players do in between.  A session that was refused adds nothing. *)
Theorem sessions_accumulate (pid : string) (history : list Request) (c : Collection.t) :
  Forall (fun r => ~ overwrites pid r) history ->
  let before := get_game_data pid c in
  let after := get_game_data pid (fold_left handle history c) in
  let sessions := accepted_sessions pid history c in
  GameData.total_score after =
    GameData.total_score before + total_of GameSession.score sessions /\
  GameData.items_collected after =
    GameData.items_collected before + total_of GameSession.items_collected sessions /\
  GameData.games_played after =
    GameData.games_played before + Z.of_nat (length sessions).
Proof.
  intros Hall. cbv zeta. revert c.
  induction Hall as [|r history Hr Hall IH]; intros c.
  - simpl. lia.
  - cbn [fold_left]. destruct (IH (handle c r)) as (Hscore & Hitems & Hgames).
    rewrite Hscore, Hitems, Hgames. clear IH Hscore Hitems Hgames.
    destruct (not_overwrites_cases pid r Hr) as [Hne|(now & s & -> & <-)].
    + rewrite (accepted_sessions_other pid r history c Hne).
      unfold get_game_data. by rewrite (handle_others c r pid Hne).
    + cbn [accepted_sessions].
      destruct (decide (accepted c (RecordGameSession now s))) as [Hacc|Hacc].
      * rewrite decide_True by done.
        destruct (record_game_session_step now s c Hacc) as (Hscore & Hitems & Hgames).
        cbn [handle]. rewrite Hscore, Hitems, Hgames. cbn [total_of foldr length].
        unfold total_of. lia.
      * rewrite decide_False by (by intros [_ ?]).
        rewrite accepted_session in Hacc.
        cbn [handle]. by rewrite record_game_session_refused.
Qed.

Lemma sessions_accumulate_witness :
  GameData.total_score
    (get_game_data "bob"
       (fold_left handle
          [RecordGameSession 2000 (GameSession.mk "bob" 6 75 12 true (Some 120));
           SaveGameData 3000 (GameData.mk "alice" 1 1 0 0 0 None);
           RecordGameSession 4000 (GameSession.mk "bob" 7 (2 ^ 63) 8 false (Some 90));
           RecordGameSession 5000 (GameSession.mk "bob" 7 50 8 false (Some 90));
           ResetPlayerData "carol"] [alice; bob; carol])) = 90 + (75 + 50) /\
  GameData.games_played
    (get_game_data "bob"
       (fold_left handle
          [RecordGameSession 2000 (GameSession.mk "bob" 6 75 12 true (Some 120));
           SaveGameData 3000 (GameData.mk "alice" 1 1 0 0 0 None);
           RecordGameSession 4000 (GameSession.mk "bob" 7 (2 ^ 63) 8 false (Some 90));
           RecordGameSession 5000 (GameSession.mk "bob" 7 50 8 false (Some 90));
           ResetPlayerData "carol"] [alice; bob; carol])) = 2 + 2.
Proof.
  destruct (sessions_accumulate "bob"
           [RecordGameSession 2000 (GameSession.mk "bob" 6 75 12 true (Some 120));
            SaveGameData 3000 (GameData.mk "alice" 1 1 0 0 0 None);
            RecordGameSession 4000 (GameSession.mk "bob" 7 (2 ^ 63) 8 false (Some 90));
            RecordGameSession 5000 (GameSession.mk "bob" 7 50 8 false (Some 90));
            ResetPlayerData "carol"] [alice; bob; carol]) as (Hscore & _ & Hgames).
  - repeat constructor; simpl; (tauto || discriminate).
  - split; [exact Hscore|exact Hgames].
Defined.

(** What one session does to a stored document. *)
Lemma record_game_session_existing (now : datetime) (s : GameSession.t) (c : Collection.t)
    (prior : Document) :
  stored (GameSession.player_id s) c = Some prior ->
  exists r,
    stored (GameSession.player_id s) (snd (record_game_session now s c)) = Some r /\
    GameData.max_level prior <= GameData.max_level r /\
    GameData.current_level r <= Z.max (GameData.current_level prior) (GameData.max_level r).
Proof.
  intros Hprior.
  destruct (decide (storable (merged_record now s
                                (stored (GameSession.player_id s) c)))) as [Hs|Hs].
  - eexists. split; [by apply record_game_session_stored|].
    rewrite Hprior. simpl. destruct (GameSession.completed s); lia.
  - rewrite record_game_session_refused by done. exists prior. split; [done|lia].
Qed.

(** X6.  While no save and no reset names a player who has a document, the
    player keeps a document and its max_level never decreases, whatever
    sessions are recorded and whatever the other players do; and if
    current_level was at most max_level, it stays so. *)
Theorem max_level_never_decreases (pid : string) (history : list Request)
    (c : Collection.t) (prior : Document) :
  stored pid c = Some prior ->
  Forall (fun r => ~ overwrites pid r) history ->
  exists r,
    stored pid (fold_left handle history c) = Some r /\
    GameData.max_level prior <= GameData.max_level r /\
    (GameData.current_level prior <= GameData.max_level prior ->
     GameData.current_level r <= GameData.max_level r).
Proof.
  intros Hprior Hall. revert c prior Hprior.
  induction Hall as [|r history Hr Hall IH]; intros c prior Hprior.
  - exists prior. by repeat split.
  - cbn [fold_left].
    destruct (not_overwrites_cases pid r Hr) as [Hne|(now & s & -> & <-)].
    + apply (IH (handle c r) prior). by rewrite handle_others.
    + destruct (record_game_session_existing now s c prior Hprior)
        as (r1 & Hr1 & Hmax & Hcur).
      destruct (IH _ r1 Hr1) as (r2 & Hr2 & Hmax2 & Hcur2).
      exists r2. split; [done|]. split; [lia|]. intros Hle. apply Hcur2. lia.
Qed.

Lemma max_level_never_decreases_witness :
  exists r,
    stored "bob" (fold_left handle
                    [RecordGameSession 2 (GameSession.mk "bob" 2 75 12 true (Some 120));
                     SaveGameData 3 (GameData.mk "alice" 1 1 0 0 0 None);
                     RecordGameSession 4 (GameSession.mk "bob" 7 50 8 false (Some 90))]
                    [alice; bob; carol]) = Some r /\
    GameData.max_level bob <= GameData.max_level r /\
    (GameData.current_level bob <= GameData.max_level bob ->
     GameData.current_level r <= GameData.max_level r).
Proof.
  apply (max_level_never_decreases "bob"
           [RecordGameSession 2 (GameSession.mk "bob" 2 75 12 true (Some 120));
            SaveGameData 3 (GameData.mk "alice" 1 1 0 0 0 None);
            RecordGameSession 4 (GameSession.mk "bob" 7 50 8 false (Some 90))]
           [alice; bob; carol] bob).
  - reflexivity.
  - repeat constructor; simpl; (tauto || discriminate).
Defined.

(** ** Ranks and the leaderboard *)

Lemma get_player_rank_stored (pid : string) (c : Collection.t) (p : Document) :
  stored pid c = Some p ->
  RankResponse.rank (get_player_rank pid c) =
    Some (1 + Z.of_nat (length (filter (strictly_better p) c))).
Proof.
  intros Hp. unfold get_player_rank. rewrite Hp. simpl.
  rewrite count_better_players. f_equal. lia.
Qed.

Lemma length_filter_strict {A} (P Q : A -> Prop) `{!forall x, Decision (P x)}
    `{!forall x, Decision (Q x)} (l : list A) (x : A) :
  (forall y, P y -> Q y) -> x ∈ l -> Q x -> ~ P x ->
  (length (filter P l) < length (filter Q l))%nat.
Proof.
  intros HPQ Hx HQ HP.
  assert (forall l', (length (filter P l') <= length (filter Q l'))%nat) as Hle.
  { induction l' as [|y l' IH]; [done|]. rewrite !filter_cons.
    destruct (decide (P y)) as [Hy|Hy].
    - rewrite decide_True by auto. simpl. lia.
    - destruct (decide (Q y)); simpl; lia. }
  apply list_elem_of_split in Hx as (l1 & l2 & ->).
  rewrite !filter_app, !filter_cons, decide_False, decide_True by done.
  rewrite !length_app. simpl. pose proof (Hle l1). pose proof (Hle l2). lia.
Qed.

Lemma strictly_better_trans (p q d : Document) :
  strictly_better q p -> strictly_better p d -> strictly_better q d.
Proof. unfold strictly_better. lia. Qed.

Lemma rank_strictly_better (c : Collection.t) (p1 p2 : Document) :
  p1 ∈ c -> strictly_better p2 p1 ->
  (length (filter (strictly_better p1) c) < length (filter (strictly_better p2) c))%nat.
Proof.
  intros Hin Hbetter. apply (length_filter_strict _ _ c p1); [|done|done|].
  - intros d. by apply strictly_better_trans.
  - apply strictly_better_irrefl.
Qed.

(** X7.  The ranks of [get_player_rank] follow the order of the
    leaderboard keys: of two stored players, one has the strictly smaller
    rank exactly when it has the higher max_level, or the same max_level
    and the higher total_score; they have the same rank exactly when they
    agree on both. *)
Theorem rank_follows_order (c : Collection.t) (pid1 pid2 : string) (p1 p2 : Document) :
  stored pid1 c = Some p1 -> stored pid2 c = Some p2 ->
  exists k1 k2,
    RankResponse.rank (get_player_rank pid1 c) = Some k1 /\
    RankResponse.rank (get_player_rank pid2 c) = Some k2 /\
    (k1 < k2 <-> strictly_better p2 p1) /\
    (k1 = k2 <-> doc_key p1 = doc_key p2).
Proof.
  intros H1 H2. eexists _, _.
  split; [by apply get_player_rank_stored|]. split; [by apply get_player_rank_stored|].
  apply find_one_Some in H1 as [Hin1 _]. apply find_one_Some in H2 as [Hin2 _].
  assert (strictly_better p2 p1 ->
          (length (filter (strictly_better p1) c) <
           length (filter (strictly_better p2) c))%nat) as Hlt
    by (by apply rank_strictly_better).
  assert (strictly_better p1 p2 ->
          (length (filter (strictly_better p2) c) <
           length (filter (strictly_better p1) c))%nat) as Hgt
    by (by apply rank_strictly_better).
  assert (doc_key p1 = doc_key p2 ->
          filter (strictly_better p1) c = filter (strictly_better p2) c) as Heq.
  { intros [= Hlevel Hscore]. apply list_filter_iff. intros d.
    unfold strictly_better. by rewrite Hlevel, Hscore. }
  assert (strictly_better p2 p1 \/ doc_key p1 = doc_key p2 \/ strictly_better p1 p2)
    as Htri.
  { unfold strictly_better, doc_key.
    destruct (Z.lt_trichotomy (GameData.max_level p1) (GameData.max_level p2))
      as [?|[Hl|?]]; [lia| |lia].
    destruct (Z.lt_trichotomy (GameData.total_score p1) (GameData.total_score p2))
      as [?|[Hs|?]]; [lia| |lia].
    right. left. by rewrite Hl, Hs. }
  split; split.
  - intros Hk. destruct Htri as [?|[Hk'%Heq|Hk'%Hgt]]; [done| |lia].
    rewrite Hk' in Hk. lia.
  - intros ?%Hlt. lia.
  - intros Hk. destruct Htri as [Hk'%Hlt|[?|Hk'%Hgt]]; [lia|done|lia].
  - intros Hk%Heq. by rewrite Hk.
Qed.

Lemma rank_follows_order_witness :
  exists k1 k2,
    RankResponse.rank (get_player_rank "bob" [alice; bob; carol]) = Some k1 /\
    RankResponse.rank (get_player_rank "carol" [alice; bob; carol]) = Some k2 /\
    (k1 < k2 <-> strictly_better carol bob) /\
    (k1 = k2 <-> doc_key bob = doc_key carol).
Proof.
  apply (rank_follows_order [alice; bob; carol] "bob" "carol" bob carol); reflexivity.
Defined.

(** The entries of the leaderboard are a prefix of the sorted collection. *)
Lemma leaderboard_lookup (first_batch : nat) (limit : Z) (c : Collection.t) (i : nat)
    (e : Entry.t) :
  LeaderboardResponse.leaderboard (get_leaderboard first_batch limit c) !! i = Some e ->
  exists d, Collection.sort leaderboard_sort c !! i = Some d /\ e = format_entry i d.
Proof.
  unfold get_leaderboard. simpl.
  intros (d & Hd & ->)%list_lookup_imap_Some. exists d. split; [|done].
  destruct (limit_prefix first_batch limit (Collection.sort leaderboard_sort c))
    as [k Hk].
  rewrite Hk in Hd. by apply lookup_take_Some in Hd as [Hd _].
Qed.

Lemma sort_elem_of (c : Collection.t) (d : Document) :
  d ∈ Collection.sort leaderboard_sort c <-> d ∈ c.
Proof. by rewrite (sort_permutation leaderboard_sort c). Qed.

Lemma sorted_later_not_better (c : Collection.t) (i : nat) (d x : Document) :
  Collection.sort leaderboard_sort c !! i = Some d ->
  x ∈ drop (S i) (Collection.sort leaderboard_sort c) ->
  listed_before (doc_key d) (doc_key x) /\ ~ strictly_better d x.
Proof.
  intros Hd Hx. pose proof (sort_sorted leaderboard_sort c) as Hsorted.
  rewrite <- (take_drop_middle _ i d Hd) in Hsorted.
  apply StronglySorted_app in Hsorted as (_ & _ & Hrest).
  apply StronglySorted_cons in Hrest as [Hall _].
  rewrite Forall_forall in Hall. apply Hall, precedes_leaderboard_sort in Hx.
  split; [done|]. revert Hx. unfold listed_before, strictly_better, doc_key. simpl. lia.
Qed.

Lemma sorted_earlier_listed_before (c : Collection.t) (i : nat) (d x : Document) :
  Collection.sort leaderboard_sort c !! i = Some d ->
  x ∈ take i (Collection.sort leaderboard_sort c) ->
  listed_before (doc_key x) (doc_key d).
Proof.
  intros Hd Hx. pose proof (sort_sorted leaderboard_sort c) as Hsorted.
  rewrite <- (take_drop_middle _ i d Hd) in Hsorted.
  apply StronglySorted_app in Hsorted as (Hcross & _ & _).
  apply precedes_leaderboard_sort, Hcross; [done|left].
Qed.

Lemma filter_none {A} (P : A -> Prop) `{!forall x, Decision (P x)} (l : list A) :
  (forall x, x ∈ l -> ~ P x) -> filter P l = [].
Proof.
  induction l as [|y l IH]; intros Hall; [done|].
  rewrite filter_cons_False by (apply Hall; left).
  apply IH. intros x Hx. apply Hall. by right.
Qed.

Lemma filter_all {A} (P : A -> Prop) `{!forall x, Decision (P x)} (l : list A) :
  (forall x, x ∈ l -> P x) -> filter P l = l.
Proof.
  induction l as [|y l IH]; intros Hall; [done|].
  rewrite filter_cons_True by (apply Hall; left).
  f_equal. apply IH. intros x Hx. apply Hall. by right.
Qed.

Lemma better_count_le_position (c : Collection.t) (i : nat) (d : Document) :
  Collection.sort leaderboard_sort c !! i = Some d ->
  (length (filter (strictly_better d) c) <= i)%nat.
Proof.
  intros Hd. rewrite <- (sort_permutation leaderboard_sort c).
  rewrite <- (take_drop_middle _ i d Hd), filter_app.
  replace (filter (strictly_better d) (d :: drop (S i) _)) with (@nil Document).
  - rewrite app_nil_r. etransitivity; [apply length_filter|].
    rewrite length_take. lia.
  - symmetry. rewrite filter_cons_False by apply strictly_better_irrefl.
    apply filter_none. intros x Hx. by apply (sorted_later_not_better c i d x).
Qed.

(** X8.  With one document per player, the competition rank that
    [get_player_rank] gives a player listed on the leaderboard is at least
    1 and at most the sequential rank of the player's entry; the player of
    the first entry has rank 1. *)
Theorem rank_at_most_position (first_batch : nat) (limit : Z) (c : Collection.t)
    (i : nat) (e : Entry.t) :
  one_document_per_player c ->
  LeaderboardResponse.leaderboard (get_leaderboard first_batch limit c) !! i = Some e ->
  exists k,
    RankResponse.rank (get_player_rank (Entry.player_id e) c) = Some k /\
    1 <= k <= Entry.rank e /\
    (i = 0%nat -> k = 1).
Proof.
  intros Hunique (d & Hd & ->)%leaderboard_lookup.
  assert (d ∈ c) as Hin.
  { apply sort_elem_of. by eapply list_elem_of_lookup_2. }
  pose proof (stored_unique c d Hunique Hin) as Hst.
  pose proof (better_count_le_position c i d Hd) as Hle.
  eexists. split; [by apply get_player_rank_stored|].
  simpl. split; [lia|]. intros ->. lia.
Qed.

Lemma rank_at_most_position_witness :
  exists k,
    RankResponse.rank
      (get_player_rank (Entry.player_id (format_entry 2 alice)) [alice; bob; carol]) =
      Some k /\
    1 <= k <= Entry.rank (format_entry 2 alice) /\
    (2%nat = 0%nat -> k = 1).
Proof.
  apply (rank_at_most_position 101 10 [alice; bob; carol] 2 (format_entry 2 alice)).
  - unfold one_document_per_player. apply (bool_decide_unpack _). by vm_compute.
  - reflexivity.
Defined.

Lemma leaderboard_lookup_take (first_batch : nat) (limit : Z) (c : Collection.t)
    (i : nat) (d : Document) :
  1 <= limit ->
  take (Z.to_nat limit) (Collection.sort leaderboard_sort c) !! i = Some d ->
  LeaderboardResponse.leaderboard (get_leaderboard first_batch limit c) !! i =
    Some (format_entry i d).
Proof.
  intros Hlimit Hd. unfold get_leaderboard. simpl.
  rewrite limit_positive by lia. by rewrite list_lookup_imap, Hd.
Qed.

Lemma listed_before_refl (k : Z * Z) : listed_before k k.
Proof. unfold listed_before. lia. Qed.

(** The position of a document in the sorted collection is below the number
    of documents whose key is at least as good as its own. *)
Lemma position_below_rivals (c : Collection.t) (j : nat) (d : Document) :
  Collection.sort leaderboard_sort c !! j = Some d ->
  (j < length (filter (fun x => listed_before (doc_key x) (doc_key d)) c))%nat.
Proof.
  intros Hj. rewrite <- (sort_permutation leaderboard_sort c).
  rewrite <- (take_drop_middle _ j d Hj), filter_app.
  rewrite filter_all by (intros x Hx; by apply (sorted_earlier_listed_before c j d x)).
  rewrite filter_cons_True by apply listed_before_refl.
  rewrite length_app, length_take. simpl.
  apply lookup_lt_Some in Hj. lia.
Qed.





(** X11.  With one document per player, no player is listed twice on the
    leaderboard, and every entry shows the fields of the document stored
    for its player, the one [get_game_data] returns. *)
Theorem leaderboard_entries_stored (first_batch : nat) (limit : Z) (c : Collection.t) :
  one_document_per_player c ->
  let rows := LeaderboardResponse.leaderboard (get_leaderboard first_batch limit c) in
  NoDup (Entry.player_id <$> rows) /\
  (forall e, e ∈ rows ->
     entry_of e (get_game_data (Entry.player_id e) c) /\
     exists d, stored (Entry.player_id e) c = Some d /\ entry_of e d).
Proof.
  intros Hunique rows. subst rows. split.
  - unfold get_leaderboard. simpl.
    assert (forall l : list Document,
              Entry.player_id <$> imap format_entry l = GameData.player_id <$> l) as Hids.
    { intros l. apply list_eq. intros j.
      rewrite !list_lookup_fmap, list_lookup_imap. by destruct (l !! j). }
    rewrite Hids.
    assert (NoDup (GameData.player_id <$> Collection.sort leaderboard_sort c)) as Hsorted.
    { by rewrite (sort_permutation leaderboard_sort c). }
    destruct (limit_prefix first_batch limit (Collection.sort leaderboard_sort c))
      as [k ->].
    rewrite fmap_take. eapply sublist_NoDup; [exact Hsorted|apply sublist_take].
  - intros e [i (d & Hd & ->)%leaderboard_lookup]%list_elem_of_lookup.
    assert (d ∈ c) as Hin.
    { apply sort_elem_of. by eapply list_elem_of_lookup_2. }
    pose proof (stored_unique c d Hunique Hin) as Hst. simpl.
    unfold get_game_data. rewrite Hst.
    split; [apply format_entry_of|]. exists d. split; [done|apply format_entry_of].
Qed.

Lemma leaderboard_entries_stored_witness :
  let rows :=
    LeaderboardResponse.leaderboard (get_leaderboard 101 2 [alice; bob; carol]) in
  NoDup (Entry.player_id <$> rows) /\
  (forall e, e ∈ rows ->
     entry_of e (get_game_data (Entry.player_id e) [alice; bob; carol]) /\
     exists d, stored (Entry.player_id e) [alice; bob; carol] = Some d /\ entry_of e d).
Proof.
  apply (leaderboard_entries_stored 101 2 [alice; bob; carol]).
  unfold one_document_per_player. apply (bool_decide_unpack _). by vm_compute.
Defined.


(** ** Statistics and the writes *)

Lemma sum_of_app (f : Document -> Z) (l1 l2 : Collection.t) :
  sum_of f (l1 ++ l2) = sum_of f l1 + sum_of f l2.
Proof. unfold sum_of. induction l1 as [|d l1 IH]; simpl; lia. Qed.

Lemma sum_of_cons (f : Document -> Z) (d : Document) (l : Collection.t) :
  sum_of f (d :: l) = f d + sum_of f l.
Proof. done. Qed.

Lemma sum_of_Permutation (f : Document -> Z) (l1 l2 : Collection.t) :
  l1 ≡ₚ l2 -> sum_of f l1 = sum_of f l2.
Proof. induction 1; rewrite ?sum_of_cons; lia. Qed.

Lemma is_maximum_of_unique (f : Document -> Z) (l1 l2 : Collection.t) (m1 m2 : Z) :
  l1 ≡ₚ l2 -> is_maximum_of f l1 m1 -> is_maximum_of f l2 m2 -> m1 = m2.
Proof.
  intros Hperm [(d1 & Hd1 & <-) Hub1] [(d2 & Hd2 & <-) Hub2].
  rewrite Hperm in Hd1. rewrite <- Hperm in Hd2.
  specialize (Hub1 d2 Hd2). specialize (Hub2 d1 Hd1). lia.
Qed.

(** The response of [get_game_statistics] on a collection that is not
    empty. *)
Lemma get_game_statistics_nonempty (d : Document) (ds : list Document) :
  exists m,
    is_maximum_of GameData.max_level (d :: ds) m /\
    get_game_statistics (d :: ds) =
      {| Stats.total_players := Z.of_nat (length (d :: ds));
         Stats.total_score := sum_of GameData.total_score (d :: ds);
         Stats.total_items_collected := sum_of GameData.items_collected (d :: ds);
         Stats.total_games_played := sum_of GameData.games_played (d :: ds);
         Stats.max_level_reached := m;
         Stats.average_score_per_player :=
           true_div (sum_of GameData.total_score (d :: ds))
             (Z.max (Z.of_nat (length (d :: ds))) 1) |}.
Proof.
  destruct (stats_pipeline_result d ds) as (stats & Hagg & Hscore & Hitems & Hgames & Hmax).
  eexists. split; [exact Hmax|].
  unfold get_game_statistics. rewrite Hagg, count_everything.
  by rewrite Hscore, Hitems, Hgames.
Qed.


(** The sum of a counter over the collection after an upsert: the player's
    old value, 0 for a new player, gives way to the new one. *)
Lemma sum_of_upsert (f : Document -> Z) (pid : string) (doc : Document)
    (c : Collection.t) :
  f (default_record pid) = 0 ->
  sum_of f (snd (Collection.upsert (Collection.PlayerId pid) doc c)) =
    sum_of f c - f (get_game_data pid c) + f doc.
Proof.
  intros Hdefault. unfold get_game_data.
  destruct (upsert_cases pid doc c)
    as [(old & l1 & l2 & -> & _ & -> & ->)|[-> ->]].
  - rewrite !sum_of_app, !sum_of_cons. lia.
  - fold (default_record pid). rewrite sum_of_app, sum_of_cons, Hdefault.
    unfold sum_of. simpl. lia.
Qed.





(** ** The order of the documents does not matter to the readers *)

Lemma stored_Permutation (pid : string) (c1 c2 : Collection.t) :
  one_document_per_player c1 -> c1 ≡ₚ c2 -> stored pid c1 = stored pid c2.
Proof.
  intros Hunique1 Hperm.
  assert (one_document_per_player c2) as Hunique2.
  { unfold one_document_per_player in *. by rewrite <- Hperm. }
  destruct (stored pid c1) as [d|] eqn:Hst.
  - pose proof (stored_player_id _ _ _ Hst) as <-.
    apply find_one_Some in Hst as [Hin _]. rewrite Hperm in Hin.
    symmetry. by apply stored_unique.
  - symmetry. apply find_one_None. intros d Hd. rewrite <- Hperm in Hd.
    revert d Hd. by apply find_one_None.
Qed.

(** X14.  What the reading handlers return does not depend on the order in
    which the store holds the documents: on two collections with the same
    documents, [get_game_statistics] returns the same response, and, with
    one document per player, so do [get_game_data] and [get_player_rank]
    for every player. *)
Theorem readers_ignore_order (c1 c2 : Collection.t) :
  c1 ≡ₚ c2 ->
  get_game_statistics c1 = get_game_statistics c2 /\
  (one_document_per_player c1 ->
   forall pid,
     get_game_data pid c1 = get_game_data pid c2 /\
     get_player_rank pid c1 = get_player_rank pid c2).
Proof.
  intros Hperm. split.
  - destruct c1 as [|d1 ds1], c2 as [|d2 ds2].
    + done.
    + by apply Permutation_nil_cons in Hperm.
    + symmetry in Hperm. by apply Permutation_nil_cons in Hperm.
    + destruct (get_game_statistics_nonempty d1 ds1) as (m1 & Hm1 & ->).
      destruct (get_game_statistics_nonempty d2 ds2) as (m2 & Hm2 & ->).
      rewrite (is_maximum_of_unique _ _ _ _ _ Hperm Hm1 Hm2).
      rewrite !(sum_of_Permutation _ _ _ Hperm).
      by rewrite (Permutation_length Hperm).
  - intros Hunique pid.
    pose proof (stored_Permutation pid c1 c2 Hunique Hperm) as Hst.
    unfold get_game_data, get_player_rank. rewrite Hst.
    split; [done|]. destruct (stored pid c2) as [p|]; [|done].
    rewrite !count_better_players, !count_everything.
    by rewrite Hperm.
Qed.

Lemma readers_ignore_order_witness :
  get_game_statistics [alice; bob; carol] = get_game_statistics [carol; alice; bob] /\
  (one_document_per_player [alice; bob; carol] ->
   forall pid,
     get_game_data pid [alice; bob; carol] = get_game_data pid [carol; alice; bob] /\
     get_player_rank pid [alice; bob; carol] = get_player_rank pid [carol; alice; bob]).
Proof.
  apply (readers_ignore_order [alice; bob; carol] [carol; alice; bob]).
  change [carol; alice; bob] with ([carol] ++ [alice; bob]).
  change [alice; bob; carol] with ([alice; bob] ++ [carol]).
  apply Permutation_app_comm.
Defined.

(** ** What [get_game_data] returns *)

(** X15.  [get_game_data] always answers under the queried player
    identifier; it returns a document of the collection when one carries
    that identifier, and the default record only when none does. *)
Theorem get_game_data_cases (pid : string) (c : Collection.t) :
  GameData.player_id (get_game_data pid c) = pid /\
  ((exists d, d ∈ c /\ GameData.player_id d = pid) ->
   get_game_data pid c ∈ c) /\
  (get_game_data pid c ∈ c \/
   (get_game_data pid c = default_record pid /\
    forall d, d ∈ c -> GameData.player_id d <> pid)).
Proof.
  unfold get_game_data.
  destruct (stored pid c) as [p|] eqn:Hst.
  - pose proof (stored_player_id _ _ _ Hst) as Hid.
    apply find_one_Some in Hst as [Hin _]. by repeat split; [..|left].
  - rewrite find_one_None in Hst. split; [done|]. split.
    + intros (d & Hd & Hid). apply Hst in Hd. by apply not_matches_PlayerId in Hd.
    + right. split; [done|]. intros d Hd. by apply not_matches_PlayerId, Hst.
Qed.

Lemma get_game_data_cases_witness : get_game_data "bob" [alice; bob; carol] ∈ [alice; bob; carol].
Proof.
  apply (proj1 (proj2 (get_game_data_cases "bob" [alice; bob; carol]))).
  exists bob. split; [right; left|reflexivity].
Defined.

(** * The test suite against the handlers *)

(** ** What the suite needs of the store *)

Lemma save_game_data_accepted (now : datetime) (g : GameData.t) (c : Collection.t) :
  storable g ->
  exists body,
    fst (save_game_data now g c) = OK body /\
    SaveResponse.success body = true /\
    SaveResponse.message body = "Game data saved successfully" /\
    stored (GameData.player_id g) (snd (save_game_data now g c)) =
      Some (kept (with_last_played now g)).
Proof.
  intros Hg. rewrite <- (save_game_data_stored now g c Hg).
  rewrite save_game_data_eq. cbv zeta. rewrite decide_True by done.
  by eexists.
Qed.

Lemma record_game_session_accepted (now : datetime) (s : GameSession.t)
    (c : Collection.t) (prior : Document) :
  let r :=
    GameData.mk (GameSession.player_id s)
      (if GameSession.completed s then GameSession.level s
       else GameData.current_level prior)
      (if GameSession.completed s
       then Z.max (GameSession.level s) (GameData.max_level prior)
       else GameData.max_level prior)
      (GameData.total_score prior + GameSession.score s)
      (GameData.items_collected prior + GameSession.items_collected s)
      (GameData.games_played prior + 1)
      (Some now) in
  stored (GameSession.player_id s) c = Some prior ->
  storable r ->
  (exists body, fst (record_game_session now s c) = OK body /\
                SessionResponse.success body = true) /\
  stored (GameSession.player_id s) (snd (record_game_session now s c)) = Some (kept r).
Proof.
  intros r Hprior Hr.
  assert (merged_record now s (stored (GameSession.player_id s) c) = r) as Hmerged
    by by rewrite Hprior.
  split.
  - rewrite record_game_session_eq. cbv zeta. rewrite Hmerged, decide_True by done.
    by eexists.
  - rewrite record_game_session_stored by by rewrite Hmerged. by rewrite Hmerged.
Qed.

Lemma handle_write_others_sum (f : Document -> Z) (pid : string) (c : Collection.t)
    (r : Request) :
  writes_to pid r -> f (default_record pid) = 0 ->
  sum_of f (handle c r) - f (get_game_data pid (handle c r)) =
    sum_of f c - f (get_game_data pid c).
Proof.
  intros [(_ & doc & Hdoc & _ & ->)|[_ ->]]%(handle_write _ c) Hdefault; [|done].
  rewrite sum_of_upsert by done.
  unfold get_game_data at 2. rewrite stored_upsert by done. lia.
Qed.

Lemma fold_handle_write_others_sum (f : Document -> Z) (pid : string)
    (history : list Request) (c : Collection.t) :
  Forall (writes_to pid) history -> f (default_record pid) = 0 ->
  sum_of f (fold_left handle history c) -
  f (get_game_data pid (fold_left handle history c)) =
    sum_of f c - f (get_game_data pid c).
Proof.
  intros Hall Hdefault. revert c.
  induction Hall as [|r history Hr Hall IH]; intros c; [done|].
  cbn [fold_left]. rewrite IH. by apply handle_write_others_sum.
Qed.

Lemma sum_of_indicator (P : Document -> Prop) `{!forall d, Decision (P d)}
    (c : Collection.t) :
  sum_of (fun d => if decide (P d) then 1 else 0) c = Z.of_nat (length (filter P c)).
Proof.
  induction c as [|d c IH]; [done|]. rewrite sum_of_cons, filter_cons, IH.
  destruct (decide (P d)); simpl; lia.
Qed.

Lemma fold_handle_unique (history : list Request) (c : Collection.t) :
  one_document_per_player c -> one_document_per_player (fold_left handle history c).
Proof.
  intros Hc.
  apply (fold_handle_invariant one_document_per_player (fun _ => True));
    [|done|by apply Forall_true].
  intros c' r Hc' _. by apply handle_unique.
Qed.

Lemma suite_writes_to (clock : nat -> datetime) (n : nat) :
  Forall (writes_to test_player_id) (take 4 (suite_history clock n)).
Proof. by repeat constructor. Qed.

Lemma storable_small (pid : string) (a b c d e : Z) (t : option datetime) :
  0 <= a < 1000 -> 0 <= b < 1000 -> 0 <= c < 1000 -> 0 <= d < 1000 -> 0 <= e < 1000 ->
  storable (GameData.mk pid a b c d e t).
Proof. unfold storable, in_int64. simpl. lia. Qed.

(** The three sessions of the suite, recorded for a test player who has
    the record of [test_save_game_data], are all accepted. *)
Lemma suite_sessions_accepted (t1 t2 t3 : datetime) (t : option datetime)
    (c : Collection.t) :
  let s1 := GameSession.mk test_player_id 4 75 12 true (Some 120) in
  let s2 := GameSession.mk test_player_id 5 100 15 true (Some 180) in
  let s3 := GameSession.mk test_player_id 6 50 8 false (Some 90) in
  let c1 := snd (record_game_session t1 s1 c) in
  let c2 := snd (record_game_session t2 s2 c1) in
  let c3 := snd (record_game_session t3 s3 c2) in
  stored test_player_id c = Some (GameData.mk test_player_id 3 3 150 25 5 t) ->
  (exists body, fst (record_game_session t1 s1 c) = OK body /\
                SessionResponse.success body = true) /\
  (exists body, fst (record_game_session t2 s2 c1) = OK body /\
                SessionResponse.success body = true) /\
  (exists body, fst (record_game_session t3 s3 c2) = OK body /\
                SessionResponse.success body = true) /\
  stored test_player_id c3 =
    Some (GameData.mk test_player_id 5 5 375 60 8 (Some (Collection.to_millis t3))).
Proof.
  intros s1 s2 s3 c1 c2 c3 H0.
  destruct (record_game_session_accepted t1 s1 c _ H0) as [Hok1 H1].
  { apply storable_small; simpl; lia. }
  fold c1 in H1.
  destruct (record_game_session_accepted t2 s2 c1 _ H1) as [Hok2 H2].
  { apply storable_small; simpl; lia. }
  fold c2 in H2.
  destruct (record_game_session_accepted t3 s3 c2 _ H2) as [Hok3 H3].
  { apply storable_small; simpl; lia. }
  by repeat split.
Qed.

(** After the save and the three sessions of the suite the test player has
    the same record, whatever the store held. *)
Lemma suite_writes_stored (clock : nat -> datetime) (n : nat) (c : Collection.t) :
  stored test_player_id (fold_left handle (take 4 (suite_history clock n)) c) =
    Some (suite_record clock n).
Proof.
  cbn [take suite_history fold_left handle].
  apply (suite_sessions_accepted _ _ _ (Some (Collection.to_millis (clock n)))).
  apply (save_game_data_stored (clock n) (GameData.mk test_player_id 3 3 150 25 5 None)).
  apply storable_small; lia.
Qed.

Section suite_facts.
Variable clock : nat -> datetime.
Variable first_batch : nat.
Variable ismaster : option string.
Implicit Types (b : Backend) (c : Collection.t).

Lemma run_tests_cons (test : Client bool) (tests : list (Client bool))
    (passed failed : nat) b :
  run_tests (test :: tests) passed failed b =
    if fst (test b) then run_tests tests (S passed) failed (snd (test b))
    else run_tests tests passed (S failed) (snd (test b)).
Proof. simpl. unfold mbind, client_bind. by destruct (test b) as [[] b']. Qed.

Lemma run_tests_count (tests : list (Client bool)) (passed failed : nat) b :
  let result := fst (run_tests tests passed failed b) in
  (fst result + snd result = passed + failed + length tests)%nat /\
  (passed <= fst result)%nat /\ (failed <= snd result)%nat.
Proof.
  revert passed failed b. induction tests as [|test tests IH]; intros passed failed b.
  - simpl. lia.
  - rewrite run_tests_cons. cbv zeta. destruct (fst (test b)).
    + destruct (IH (S passed) failed (snd (test b))) as (? & ? & ?). simpl in *. lia.
    + destruct (IH passed (S failed) (snd (test b))) as (? & ? & ?). simpl in *. lia.
Qed.

(** The backend after a run of tests does not depend on their outcomes. *)
Lemma run_tests_backend (tests : list (Client bool)) (passed failed : nat) b :
  snd (run_tests tests passed failed b) =
    fold_left (fun b' (test : Client bool) => snd (test b')) tests b.
Proof.
  revert passed failed b. induction tests as [|test tests IH]; intros passed failed b.
  - done.
  - rewrite run_tests_cons. simpl. by destruct (fst (test b)).
Qed.

Lemma reset_player_data_success (pid : string) c :
  ResetResponse.success (fst (reset_player_data pid c)) = true.
Proof. unfold reset_player_data. by destruct (Collection.delete_one _ c). Qed.

Lemma writing_run {A} (handler : datetime -> Collection.t -> A * Collection.t) b :
  writing clock handler b =
    (fst (handler (clock (instants_read b)) (collection b)),
     {| collection := snd (handler (clock (instants_read b)) (collection b));
        instants_read := S (instants_read b) |}).
Proof. unfold writing. by destruct (handler _ _). Qed.

Lemma test_save_game_data_run b :
  test_save_game_data clock b =
    (true,
     {| collection :=
          handle (collection b)
            (SaveGameData (clock (instants_read b))
               (GameData.mk test_player_id 3 3 150 25 5 None));
        instants_read := S (instants_read b) |}).
Proof.
  unfold test_save_game_data, post_game_data, mbind, client_bind.
  rewrite writing_run. cbn [mret client_ret handle].
  destruct (save_game_data_accepted (clock (instants_read b))
              (GameData.mk test_player_id 3 3 150 25 5 None) (collection b))
    as (body & -> & -> & -> & _); [|done].
  apply storable_small; lia.
Qed.

Lemma post_sessions_cons (s : GameSession.t) (sessions : list GameSession.t)
    (success_count : nat) b :
  post_sessions clock (s :: sessions) success_count b =
    post_sessions clock sessions
      match fst (record_game_session (clock (instants_read b)) s (collection b)) with
      | OK data =>
          if SessionResponse.success data then S success_count else success_count
      | HTTPException _ _ _ => success_count
      end
      {| collection := handle (collection b) (RecordGameSession (clock (instants_read b)) s);
         instants_read := S (instants_read b) |}.
Proof.
  cbn [post_sessions]. unfold mbind, client_bind, post_game_session.
  by rewrite writing_run.
Qed.

(** The backend after a run of sessions does not depend on the answers. *)
Lemma post_sessions_backend (sessions : list GameSession.t) (success_count : nat) b :
  snd (post_sessions clock sessions success_count b) =
    {| collection :=
         fold_left handle
           (imap (fun i s => RecordGameSession (clock (i + instants_read b)%nat) s) sessions)
           (collection b);
       instants_read := (length sessions + instants_read b)%nat |}.
Proof.
  revert success_count b. induction sessions as [|s sessions IH]; intros success_count b.
  - simpl. by destruct b.
  - rewrite post_sessions_cons, IH. cbn [collection instants_read].
    f_equal; [|simpl; lia].
    cbn [imap fold_left]. f_equal. apply imap_ext. intros i x _. simpl.
    do 2 f_equal. lia.
Qed.

Lemma test_record_game_sessions_backend b :
  snd (test_record_game_sessions clock b) =
    {| collection :=
         fold_left handle
           (imap (fun i s => RecordGameSession (clock (i + instants_read b)%nat) s)
              test_sessions)
           (collection b);
       instants_read := (3 + instants_read b)%nat |}.
Proof.
  unfold test_record_game_sessions, mbind, client_bind.
  pose proof (post_sessions_backend test_sessions 0 b) as Hbackend.
  destruct (post_sessions clock test_sessions 0 b) as [success_count b'].
  exact Hbackend.
Qed.

(** After [test_save_game_data] the three sessions are all counted. *)
Lemma test_record_game_sessions_saved b (t : option datetime) :
  stored test_player_id (collection b) =
    Some (GameData.mk test_player_id 3 3 150 25 5 t) ->
  fst (test_record_game_sessions clock b) = true.
Proof.
  intros Hsaved. unfold test_record_game_sessions, mbind, client_bind, test_sessions.
  destruct (suite_sessions_accepted (clock (instants_read b))
              (clock (S (instants_read b))) (clock (S (S (instants_read b)))) t
              (collection b) Hsaved)
    as ((body1 & Hok1 & Hs1) & (body2 & Hok2 & Hs2) & (body3 & Hok3 & Hs3) & _).
  rewrite post_sessions_cons, Hok1, Hs1. cbn [collection instants_read handle].
  rewrite post_sessions_cons. cbn [collection instants_read handle].
  rewrite Hok2, Hs2.
  rewrite post_sessions_cons. cbn [collection instants_read handle].
  rewrite Hok3, Hs3. done.
Qed.

Lemma test_admin_reset_player_backend b :
  snd (test_admin_reset_player clock b) =
    {| collection :=
         fold_left handle
           [SaveGameData (clock (instants_read b))
              (GameData.mk test_reset_player 2 2 50 10 2 None);
            ResetPlayerData test_reset_player]
           (collection b);
       instants_read := S (instants_read b) |}.
Proof.
  unfold test_admin_reset_player, post_game_data, delete_reset_player,
    request_game_data, reading, mbind, client_bind.
  rewrite writing_run. cbn [collection instants_read fold_left handle].
  destruct (save_game_data_accepted (clock (instants_read b))
              (GameData.mk test_reset_player 2 2 50 10 2 None) (collection b))
    as (body & -> & _); [apply storable_small; lia|].
  destruct (reset_player_data test_reset_player _) as [data c'] eqn:Hreset.
  cbn [snd]. by destruct (_ && _).
Qed.

(** The tests that only read leave the backend alone. *)
Lemma reading_tests_backend b :
  snd (test_health_check ismaster b) = b /\
  snd (test_get_new_player_data b) = b /\
  snd (test_get_saved_player_data b) = b /\
  snd (test_leaderboard first_batch b) = b /\
  snd (test_player_rank b) = b /\
  snd (test_game_statistics b) = b.
Proof. by repeat split. Qed.

Lemma run_all_tests_backend b :
  snd (run_all_tests clock first_batch ismaster b) =
    {| collection := fold_left handle (suite_history clock (instants_read b)) (collection b);
       instants_read := (5 + instants_read b)%nat |}.
Proof.
  unfold run_all_tests. rewrite run_tests_backend. unfold tests. cbn [fold_left].
  destruct (reading_tests_backend b) as (-> & -> & _).
  rewrite test_save_game_data_run. cbn [snd].
  rewrite (proj1 (proj2 (proj2 (reading_tests_backend _)))).
  rewrite test_record_game_sessions_backend. cbn [collection instants_read].
  destruct (reading_tests_backend
              {| collection :=
                   fold_left handle
                     (imap (fun i s => RecordGameSession (clock (i + S (instants_read b))%nat) s)
                        test_sessions)
                     (handle (collection b)
                        (SaveGameData (clock (instants_read b))
                           (GameData.mk test_player_id 3 3 150 25 5 None)));
                 instants_read := (3 + S (instants_read b))%nat |})
    as (_ & _ & _ & -> & -> & ->).
  rewrite test_admin_reset_player_backend. cbn [collection instants_read].
  unfold suite_history, test_sessions. cbn [imap fold_left compose].
  replace (0 + S (instants_read b))%nat with (1 + instants_read b)%nat by lia.
  replace (1 + S (instants_read b))%nat with (2 + instants_read b)%nat by lia.
  replace (2 + S (instants_read b))%nat with (3 + instants_read b)%nat by lia.
  replace (3 + S (instants_read b))%nat with (4 + instants_read b)%nat by lia.
  f_equal.
Qed.
End suite_facts.

(** ** The outcome of each test *)

Section test_outcomes.
Variable clock : nat -> datetime.
Variable first_batch : nat.
Implicit Types (b : Backend) (d : Document).

Lemma test_get_new_player_data_absent b :
  stored test_player_id (collection b) = None ->
  fst (test_get_new_player_data b) = true.
Proof.
  intros Hnone. unfold test_get_new_player_data, request_game_data, reading,
    mbind, client_bind, mret, client_ret, get_game_data.
  by rewrite Hnone.
Qed.

Lemma test_get_new_player_data_present b d :
  stored test_player_id (collection b) = Some d ->
  GameData.last_played d <> None ->
  fst (test_get_new_player_data b) = false.
Proof.
  intros Hd Hplayed. unfold test_get_new_player_data, request_game_data, reading,
    mbind, client_bind, mret, client_ret, get_game_data.
  rewrite Hd. cbn [fst]. rewrite (bool_decide_eq_false_2 _ Hplayed).
  apply andb_false_r.
Qed.

Lemma test_get_saved_player_data_saved b (t : datetime) :
  stored test_player_id (collection b) =
    Some (GameData.mk test_player_id 3 3 150 25 5 (Some t)) ->
  fst (test_get_saved_player_data b) = true.
Proof.
  intros Hd. unfold test_get_saved_player_data, request_game_data, reading,
    mbind, client_bind, mret, client_ret, get_game_data.
  by rewrite Hd.
Qed.

Lemma test_leaderboard_listed b d :
  d ∈ collection b -> GameData.player_id d = test_player_id ->
  (length (filter (fun x => listed_before (doc_key x) (doc_key d)) (collection b)) <= 10)%nat ->
  fst (test_leaderboard first_batch b) = true.
Proof.
  intros Hin Hid Hfew. unfold test_leaderboard, request_leaderboard, reading,
    mbind, client_bind, mret, client_ret. cbn [fst].
  assert (d ∈ Collection.sort leaderboard_sort (collection b))
    as [j Hj]%list_elem_of_lookup by by apply sort_elem_of.
  pose proof (position_below_rivals _ j d Hj) as Hpos.
  apply existsb_exists. exists (format_entry j d). split.
  - apply list_elem_of_In, list_elem_of_lookup. exists j.
    apply leaderboard_lookup_take; [lia|]. rewrite lookup_take_lt; [done|].
    change (Z.to_nat 10) with 10%nat. lia.
  - apply bool_decide_eq_true. exact Hid.
Qed.

Lemma test_player_rank_stored b d :
  stored test_player_id (collection b) = Some d -> 5 <= GameData.max_level d ->
  fst (test_player_rank b) = true.
Proof.
  intros Hd Hlevel. unfold test_player_rank, request_player_rank, reading,
    mbind, client_bind, mret, client_ret, get_player_rank.
  rewrite Hd. cbn [fst PlayerData.player_id PlayerData.max_level].
  apply andb_true_intro. split; [by apply bool_decide_eq_true|by apply Z.leb_le].
Qed.

Lemma test_game_statistics_positive b d :
  d ∈ collection b -> 5 <= GameData.max_level d ->
  0 < sum_of GameData.total_score (collection b) ->
  fst (test_game_statistics b) = true.
Proof.
  intros Hin Hlevel Hsum. unfold test_game_statistics, request_stats, reading,
    mbind, client_bind, mret, client_ret. cbn [fst].
  destruct (collection b) as [|d0 ds] eqn:Hc; [by apply elem_of_nil in Hin|].
  destruct (get_game_statistics_nonempty d0 ds) as (m & [_ Hmax] & ->).
  cbn [Stats.total_players Stats.total_score Stats.max_level_reached].
  specialize (Hmax d Hin).
  rewrite !andb_true_iff, Z.leb_le, Z.ltb_lt, Z.leb_le.
  repeat split; [simpl; lia|done|lia].
Qed.

Lemma test_admin_reset_player_unique b :
  one_document_per_player (collection b) ->
  fst (test_admin_reset_player clock b) = true.
Proof.
  intros Hunique. unfold test_admin_reset_player, post_game_data, delete_reset_player,
    request_game_data, reading, mbind, client_bind.
  rewrite writing_run. cbn [collection instants_read].
  set (g := GameData.mk test_reset_player 2 2 50 10 2 None).
  set (c1 := snd (save_game_data (clock (instants_read b)) g (collection b))).
  assert (one_document_per_player c1) as Hunique1.
  { apply (handle_unique (collection b) (SaveGameData (clock (instants_read b)) g)).
    exact Hunique. }
  destruct (save_game_data_accepted (clock (instants_read b)) g (collection b))
    as (body & -> & _ & _ & Hstored); [apply storable_small; lia|].
  fold c1 in Hstored.
  pose proof (delete_one_gone test_reset_player c1 Hunique1) as Hgone.
  unfold reset_player_data.
  destruct (delete_one_cases test_reset_player c1)
    as [(d & l1 & l2 & _ & _ & _ & Hdel)|[Hnone _]].
  - cbv beta iota. cbn [collection]. rewrite Hdel in *. simpl in Hgone. simpl.
    unfold get_game_data. by rewrite Hgone.
  - unfold g in Hstored. simpl in Hstored, Hnone. congruence.
Qed.
End test_outcomes.

(** ** The suite as a whole *)

Section suite_theorems.
Variable clock : nat -> datetime.
Variable first_batch : nat.
Implicit Types (b : Backend).

Lemma suite_history_split (n : nat) (c : Collection.t) :
  fold_left handle (suite_history clock n) c =
    handle (handle (fold_left handle (take 4 (suite_history clock n)) c)
              (SaveGameData (clock (4 + n)%nat)
                 (GameData.mk test_reset_player 2 2 50 10 2 None)))
      (ResetPlayerData test_reset_player).
Proof. done. Qed.

Lemma suite_history_stored (n : nat) (c : Collection.t) :
  stored test_player_id (fold_left handle (suite_history clock n) c) =
    Some (suite_record clock n).
Proof.
  rewrite suite_history_split, !handle_others by done.
  apply suite_writes_stored.
Qed.

(** X16.  Whatever the backend held and whatever the tests return, one run
    of the suite leaves the store as its six writes leave it: the test
    player has the record (5, 5, 375, 60, 8), every player other than the
    two test players has the document it had, and, with one document per
    player, the reset test player has none. *)
Theorem suite_footprint (ismaster : option string) b :
  let b' := snd (run_all_tests clock first_batch ismaster b) in
  collection b' =
    fold_left handle (suite_history clock (instants_read b)) (collection b) /\
  get_game_data test_player_id (collection b') =
    GameData.mk test_player_id 5 5 375 60 8
      (Some (Collection.to_millis (clock (3 + instants_read b)%nat))) /\
  (forall pid, pid <> test_player_id -> pid <> test_reset_player ->
     stored pid (collection b') = stored pid (collection b)) /\
  (one_document_per_player (collection b) ->
   stored test_reset_player (collection b') = None).
Proof.
  intros b'. subst b'. rewrite run_all_tests_backend. cbn [collection].
  split; [done|]. split; [|split].
  - unfold get_game_data. by rewrite suite_history_stored.
  - intros pid Hplayer Hreset.
    assert (Forall (fun r => request_player r <> pid)
              (suite_history clock (instants_read b))) as Hall.
    { repeat constructor; simpl; congruence. }
    generalize (collection b). induction Hall as [|r history Hr _ IH]; intros c; [done|].
    cbn [fold_left]. by rewrite IH, handle_others.
  - intros Hunique. rewrite suite_history_split. cbn [handle].
    rewrite reset_player_data_collection. apply delete_one_gone.
    apply (handle_unique _ (SaveGameData _ _)). by apply fold_handle_unique.
Qed.

(** X17.  The suite passes all nine tests on a backend whose database
    answers, holds one document per player and none for the test player,
    holds at most nine documents whose key is at least as good as
    (5, 375), and has a total score above -375. *)
Theorem suite_passes b :
  one_document_per_player (collection b) ->
  stored test_player_id (collection b) = None ->
  (length (filter (fun d => listed_before (doc_key d) (5, 375)%Z) (collection b)) <= 9)%nat ->
  -375 < sum_of GameData.total_score (collection b) ->
  fst (run_all_tests clock first_batch None b) = (9%nat, 0%nat).
Proof.
  intros Hunique Habsent Hrivals Hscore.
  set (n := instants_read b). set (c := collection b) in *.
  set (c2 := fold_left handle (take 4 (suite_history clock n)) c).
  pose proof (suite_writes_stored clock n c) as Hstored. fold c2 in Hstored.
  assert (suite_record clock n ∈ c2) as Hin by by apply find_one_Some in Hstored as [? _].
  assert (get_game_data test_player_id c = default_record test_player_id) as Hdefault.
  { unfold get_game_data. by rewrite Habsent. }
  assert (get_game_data test_player_id c2 = suite_record clock n) as Hrecord.
  { unfold get_game_data. by rewrite Hstored. }
  (* the totals and the rivals after the writes *)
  pose proof (fold_handle_write_others_sum GameData.total_score test_player_id _ c
                (suite_writes_to clock n) eq_refl) as Hsum.
  fold c2 in Hsum. rewrite Hrecord, Hdefault in Hsum.
  change (GameData.total_score (suite_record clock n)) with 375 in Hsum.
  change (GameData.total_score (default_record test_player_id)) with 0 in Hsum.
  pose proof (fold_handle_write_others_sum
                (fun d => if decide (listed_before (doc_key d) (5, 375)) then 1 else 0)
                test_player_id _ c (suite_writes_to clock n) eq_refl) as Hcount.
  fold c2 in Hcount. rewrite Hrecord, Hdefault, !sum_of_indicator in Hcount.
  change (if decide (listed_before (doc_key (suite_record clock n)) (5, 375))
          then 1 else 0) with 1 in Hcount.
  change (if decide (listed_before (doc_key (default_record test_player_id)) (5, 375))
          then 1 else 0) with 0 in Hcount.
  (* the nine tests in turn *)
  unfold run_all_tests, tests.
  rewrite run_tests_cons. cbn [fst snd test_health_check]. 
  change (fst (test_health_check None b)) with true. cbv iota.
  change (snd (test_health_check None b)) with b.
  rewrite run_tests_cons, (test_get_new_player_data_absent b Habsent).
  change (snd (test_get_new_player_data b)) with b.
  rewrite run_tests_cons, test_save_game_data_run. cbn [fst snd].
  assert (stored test_player_id
            (handle c (SaveGameData (clock n)
                         (GameData.mk test_player_id 3 3 150 25 5 None))) =
          Some (GameData.mk test_player_id 3 3 150 25 5
                  (Some (Collection.to_millis (clock n))))) as Hsaved.
  { apply (save_game_data_stored (clock n)
             (GameData.mk test_player_id 3 3 150 25 5 None)).
    apply storable_small; lia. }
  rewrite run_tests_cons,
    (test_get_saved_player_data_saved _ (Collection.to_millis (clock n))) by exact Hsaved.
  match goal with |- context [snd (test_get_saved_player_data ?b1)] =>
    change (snd (test_get_saved_player_data b1)) with b1 end.
  rewrite run_tests_cons,
    (test_record_game_sessions_saved clock _ (Some (Collection.to_millis (clock n))))
    by exact Hsaved.
  rewrite test_record_game_sessions_backend.
  cbn [collection instants_read test_sessions imap fold_left compose].
  fold n c.
  match goal with |- context [{| collection := ?x; instants_read := ?k |}] =>
    replace x with c2; [set (b2 := {| collection := c2; instants_read := k |})|]
  end; cycle 1.
  { unfold c2. cbn [take suite_history fold_left].
    by replace (S n) with (1 + n)%nat by lia. }
  rewrite run_tests_cons, (test_leaderboard_listed first_batch b2 (suite_record clock n));
    [|done|done|].
  2:{ change (length (filter (fun d => listed_before (doc_key d) (5, 375)%Z) c2) <= 10)%nat.
      lia. }
  change (snd (test_leaderboard first_batch b2)) with b2.
  rewrite run_tests_cons, (test_player_rank_stored b2 (suite_record clock n));
    [|done|simpl; lia].
  change (snd (test_player_rank b2)) with b2.
  rewrite run_tests_cons, (test_game_statistics_positive b2 (suite_record clock n));
    [|done|simpl; lia|change (0 < sum_of GameData.total_score c2); lia].
  change (snd (test_game_statistics b2)) with b2.
  rewrite run_tests_cons, (test_admin_reset_player_unique clock b2);
    [done|]. by apply fold_handle_unique.
Qed.

(** X18.  The suite cannot pass twice in a row: whatever the backend held,
    after one run the test player has a document with a last_played
    instant, so in the next run [test_get_new_player_data] fails; of the
    nine tests of that run at least one fails and at most eight pass. *)
Theorem suite_not_repeatable (ismaster : option string) b :
  let b' := snd (run_all_tests clock first_batch ismaster b) in
  let result := fst (run_all_tests clock first_batch ismaster b') in
  fst (test_get_new_player_data b') = false /\
  (1 <= snd result)%nat /\ (fst result <= 8)%nat /\
  (fst result + snd result = 9)%nat.
Proof.
  intros b' result.
  assert (fst (test_get_new_player_data b') = false) as Hfails.
  { apply (test_get_new_player_data_present b' (suite_record clock (instants_read b)));
      [|done].
    unfold b'. rewrite run_all_tests_backend. cbn [collection].
    apply suite_history_stored. }
  split; [done|].
  pose proof (run_tests_count (tests clock first_batch ismaster) 0 0 b')
    as (Hsum & _ & _).
  fold (run_all_tests clock first_batch ismaster b') in Hsum. fold result in Hsum.
  assert (1 <= snd result)%nat as Hfailed.
  { unfold result, run_all_tests, tests. rewrite run_tests_cons.
    change (snd (test_health_check ismaster b')) with b'.
    destruct (fst (test_health_check ismaster b'));
      rewrite run_tests_cons, Hfails;
      match goal with |- context [run_tests ?ts ?p ?f ?b0] =>
        pose proof (run_tests_count ts p f b0) as (_ & _ & ?) end; lia. }
  simpl in Hsum. lia.
Qed.
End suite_theorems.

Lemma suite_footprint_witness :
  stored test_reset_player
    (collection (snd (run_all_tests Z.of_nat 101 None
                        {| collection := [alice; bob]; instants_read := 0 |}))) = None.
Proof.
  apply (suite_footprint Z.of_nat 101 None
           {| collection := [alice; bob]; instants_read := 0 |}).
  unfold one_document_per_player. apply (bool_decide_unpack _). by vm_compute.
Defined.

Lemma suite_passes_witness :
  fst (run_all_tests Z.of_nat 101 None
         {| collection := [alice; bob; carol]; instants_read := 0 |}) = (9%nat, 0%nat).
Proof.
  apply (suite_passes Z.of_nat 101
           {| collection := [alice; bob; carol]; instants_read := 0 |}).
  - unfold one_document_per_player. apply (bool_decide_unpack _). by vm_compute.
  - reflexivity.
  - vm_compute. lia.
  - vm_compute. reflexivity.
Defined.

(** ** The last_played instant *)

Lemma handle_last_played (c : Collection.t) (r : Request) :
  Forall (fun d => GameData.last_played d <> None) c ->
  Forall (fun d => GameData.last_played d <> None) (handle c r).
Proof.
  rewrite !Forall_forall. intros Hc d.
  destruct r as [now g|now s|pid]; simpl.
  - rewrite save_game_data_eq. cbv zeta.
    destruct (decide (storable g)); simpl; [|by apply Hc].
    intros [->|Hd]%upsert_elem_of; [done|by apply Hc].
  - rewrite record_game_session_eq. cbv zeta.
    destruct (decide (storable _)); simpl; [|by apply Hc].
    intros [->|Hd]%upsert_elem_of; [|by apply Hc].
    by destruct (stored _ c).
  - rewrite reset_player_data_collection.
    intros Hd%delete_one_elem_of. by apply Hc.
Qed.

(** X19.  Every document that a history of requests leaves in the store
    carries a last_played instant, so on such a store [get_game_data]
    answers with last_played null exactly for the players who have no
    document. *)
Theorem last_played_marks_stored (history : list Request) :
  (forall d, d ∈ run history -> GameData.last_played d <> None) /\
  (forall pid,
     GameData.last_played (get_game_data pid (run history)) = None <->
     stored pid (run history) = None).
Proof.
  assert (Forall (fun d => GameData.last_played d <> None) (run history)) as Hall.
  { apply (fold_handle_invariant _ (fun _ => True)); [|done|by apply Forall_true].
    intros c r Hc _. by apply handle_last_played. }
  rewrite Forall_forall in Hall. split; [done|].
  intros pid. unfold get_game_data.
  destruct (stored pid (run history)) as [d|] eqn:Hd; [|done].
  apply find_one_Some in Hd as [Hin _]. split; [|done].
  intros Hnone. by apply Hall in Hin.
Qed.

Lemma last_played_marks_stored_witness :
  GameData.mk "jovinho_player_1" 5 5 375 60 8 (Some 4000) ∈ run test_history /\
  GameData.last_played (GameData.mk "jovinho_player_1" 5 5 375 60 8 (Some 4000)) <> None.
Proof.
  assert (GameData.mk "jovinho_player_1" 5 5 375 60 8 (Some 4000) ∈ run test_history)
    as Hin by by left.
  split; [done|]. by apply (proj1 (last_played_marks_stored test_history)).
Defined.
